(** * The jetson-stats Prometheus collector

    A shallow embedding of [CustomCollector.collect] from
    [jetson_stats_prometheus_collector.py], and the properties of one scrape.

    The collector holds one [jtop] session.  On each scrape, [collect] checks
    [ok()], then builds and yields thirteen metric families one after the
    other, reading the session's attributes with plain subscripts.  A failed
    subscript raises ([KeyError] for a dict, [IndexError] for a list) and ends
    the generator where it stands: the families yielded before stay
    delivered. *)

From Stdlib Require Import ZArith PrimFloat.
From stdpp Require Import gmap strings list.

Set Warnings "-inexact-float".
Local Open Scope Z_scope.

(** ** Values *)

(** The numbers jtop reports: Python ints and floats (binary64). *)
Inductive number :=
  | Int (z : Z)
  | Float (f : float).

(** The exceptions a subscript can raise. *)
Inductive exn :=
  | KeyError (k : string)
  | IndexError.

Global Instance exn_eq_dec : EqDecision exn.
Proof. solve_decision. Defined.

(** Expressions either raise or evaluate. *)
Global Instance exc_ret : MRet (sum exn) := λ A a, inr a.
Global Instance exc_bind : MBind (sum exn) := λ A B f m,
  match m with
  | inl e => inl e
  | inr a => f a
  end.

(** [d[k]] on a dict. *)
Definition getitem {V} (d : gmap string V) (k : string) : exn + V :=
  match d !! k with
  | Some v => inr v
  | None => inl (KeyError k)
  end.

(** [l[i]] on a list, for an index [i >= 0]. *)
Definition getindex {V} (l : list V) (i : nat) : exn + V :=
  match l !! i with
  | Some v => inr v
  | None => inl IndexError
  end.

(** ** The jtop session, as far as [collect] reads it *)

Record timedelta := { days : Z; seconds : Z }.

Module NVPModel.
Record t := { name : string }.
End NVPModel.

Record jtop := {
  ok : bool;
  board : gmap string (gmap string string);
  nvpmodel : NVPModel.t;
  uptime : timedelta;
  cpu : gmap string (list (gmap string (gmap string number)));
  gpu : gmap string (gmap string (gmap string number));
  memory : gmap string (gmap string number);
  disk : gmap string number;
  fan : gmap string (gmap string number);
  temperature : gmap string number;
  power : gmap string (gmap string (gmap string number))
}.

(** ** Metric families, as [collect] builds them *)

Inductive family_type := info | gauge.

Inductive metric_value :=
  | GaugeValue (v : number)
  | InfoValue (d : list (string * string)).

Record Sample := {
  label_values : list string;
  value : metric_value
}.

Record MetricFamily := {
  typ : family_type;
  name : string;
  documentation : string;
  labels : list string;
  samples : list Sample
}.

Definition InfoMetricFamily (n doc : string) (ls : list string) : MetricFamily :=
  {| typ := info; name := n; documentation := doc; labels := ls; samples := [] |}.

Definition GaugeMetricFamily (n doc : string) (ls : list string) : MetricFamily :=
  {| typ := gauge; name := n; documentation := doc; labels := ls; samples := [] |}.

(** [g.add_metric(lv, v)] appends one sample. *)
Definition add_metric (g : MetricFamily) (lv : list string) (v : metric_value)
  : MetricFamily :=
  {| typ := typ g; name := name g; documentation := documentation g;
     labels := labels g;
     samples := samples g ++ [{| label_values := lv; value := v |}] |}.

(** ** Generators *)

(** What a consumer sees of a generator run to its end: the families it was
    handed, in order, and how the run ended. *)
Record Gen (A : Type) := MkGen {
  yielded : list MetricFamily;
  outcome : exn + A
}.
Arguments MkGen {A} _ _.
Arguments yielded {A} _.
Arguments outcome {A} _.

Global Instance gen_ret : MRet Gen := λ A a, MkGen [] (inr a).
Global Instance gen_bind : MBind Gen := λ A B f m,
  match outcome m with
  | inl e => MkGen (yielded m) (inl e)
  | inr a => let r := f a in MkGen (yielded m ++ yielded r) (outcome r)
  end.

Definition yield (f : MetricFamily) : Gen () := MkGen [f] (inr ()).

(** An expression evaluated inside the generator body. *)
Definition eval {A} (x : exn + A) : Gen A := MkGen [] x.

(** ** The thirteen families *)

Section families.
Variable self : jtop.

(** Board info *)
Definition jetson_info_board : exn + MetricFamily :=
  let i := InfoMetricFamily "jetson_info_board" "Board sys info" ["board_info"] in
  machine ← getitem (board self) "platform" ≫= λ d, getitem d "Machine";
  distribution ← getitem (board self) "platform" ≫= λ d, getitem d "Distribution";
  release ← getitem (board self) "platform" ≫= λ d, getitem d "Release";
  jetpack ← getitem (board self) "hardware" ≫= λ d, getitem d "Jetpack";
  l4t ← getitem (board self) "hardware" ≫= λ d, getitem d "L4T";
  module ← getitem (board self) "hardware" ≫= λ d, getitem d "Module";
  type ← getitem (board self) "hardware" ≫= λ d, getitem d "Model";
  codename ← getitem (board self) "hardware" ≫= λ d, getitem d "Codename";
  soc ← getitem (board self) "hardware" ≫= λ d, getitem d "SoC";
  cuda_arch_bin ← getitem (board self) "hardware" ≫= λ d, getitem d "CUDA Arch BIN";
  serial_number ← getitem (board self) "hardware" ≫= λ d, getitem d "Serial Number";
  mret (add_metric i ["info"] (InfoValue [
    ("machine", machine);
    ("distribution", distribution);
    ("release", release);
    ("jetpack", jetpack);
    ("l4t", l4t);
    ("module", module);
    ("type", type);
    ("codename", codename);
    ("soc", soc);
    ("cuda_arch_bin", cuda_arch_bin);
    ("serial_number", serial_number)])).

(** NV power mode *)
Definition jetson_nvpmode : exn + MetricFamily :=
  let i := InfoMetricFamily "jetson_nvpmode" "NV power mode" ["nvpmode"] in
  mret (add_metric i ["mode"] (InfoValue [("mode", NVPModel.name (nvpmodel self))])).

(** System uptime *)
Definition jetson_uptime : exn + MetricFamily :=
  let g := GaugeMetricFamily "jetson_uptime" "System uptime" ["uptime"] in
  let days := days (uptime self) in
  let seconds := seconds (uptime self) in
  let hours := seconds `div` 3600 in
  let minutes := (seconds `div` 60) `mod` 60 in
  let g := add_metric g ["days"] (GaugeValue (Int days)) in
  let g := add_metric g ["hours"] (GaugeValue (Int hours)) in
  let g := add_metric g ["minutes"] (GaugeValue (Int minutes)) in
  mret g.

(** [self._jetson.cpu['cpu'][i]['freq']['cur']] *)
Definition cpu_freq_cur (i : nat) : exn + number :=
  l ← getitem (cpu self) "cpu";
  c ← getindex l i;
  f ← getitem c "freq";
  getitem f "cur".

(** CPU usage *)
Definition jetson_usage_cpu : exn + MetricFamily :=
  let g := GaugeMetricFamily "jetson_usage_cpu" "CPU % schedutil" ["cpu"] in
  v ← cpu_freq_cur 0; let g := add_metric g ["cpu_1"] (GaugeValue v) in
  v ← cpu_freq_cur 1; let g := add_metric g ["cpu_2"] (GaugeValue v) in
  v ← cpu_freq_cur 2; let g := add_metric g ["cpu_3"] (GaugeValue v) in
  v ← cpu_freq_cur 3; let g := add_metric g ["cpu_4"] (GaugeValue v) in
  v ← cpu_freq_cur 4; let g := add_metric g ["cpu_5"] (GaugeValue v) in
  v ← cpu_freq_cur 5; let g := add_metric g ["cpu_6"] (GaugeValue v) in
  v ← cpu_freq_cur 6; let g := add_metric g ["cpu_7"] (GaugeValue v) in
  v ← cpu_freq_cur 7; let g := add_metric g ["cpu_8"] (GaugeValue v) in
  mret g.

(** GPU usage *)
Definition jetson_usage_gpu : exn + MetricFamily :=
  let g := GaugeMetricFamily "jetson_usage_gpu" "GPU % schedutil" ["gpu"] in
  v ← getitem (gpu self) "gv11b" ≫= λ d, getitem d "status" ≫= λ d, getitem d "load";
  let g := add_metric g ["val"] (GaugeValue v) in
  mret g.

(** RAM usage *)
Definition jetson_usage_ram : exn + MetricFamily :=
  let g := GaugeMetricFamily "jetson_usage_ram" "Memory usage" ["ram"] in
  v ← getitem (memory self) "RAM" ≫= λ d, getitem d "used";
  let g := add_metric g ["used"] (GaugeValue v) in
  v ← getitem (memory self) "RAM" ≫= λ d, getitem d "shared";
  let g := add_metric g ["shared"] (GaugeValue v) in
  v ← getitem (memory self) "RAM" ≫= λ d, getitem d "tot";
  let g := add_metric g ["total"] (GaugeValue v) in
  mret g.

(** Disk usage *)
Definition jetson_usage_disk : exn + MetricFamily :=
  let g := GaugeMetricFamily "jetson_usage_disk" "Disk space usage" ["disk"] in
  v ← getitem (disk self) "used";
  let g := add_metric g ["used"] (GaugeValue v) in
  v ← getitem (disk self) "total";
  let g := add_metric g ["total"] (GaugeValue v) in
  v ← getitem (disk self) "available";
  let g := add_metric g ["available"] (GaugeValue v) in
  v ← getitem (disk self) "available_no_root";
  let g := add_metric g ["available_no_root"] (GaugeValue v) in
  mret g.

(** Fan usage *)
Definition jetson_usage_fan : exn + MetricFamily :=
  let g := GaugeMetricFamily "jetson_usage_fan" "Fan usage" ["fan"] in
  v ← getitem (fan self) "tegra_pwmfan" ≫= λ d, getitem d "speed";
  let g := add_metric g ["speed"] (GaugeValue v) in
  v ← getitem (fan self) "tegra_pwmfan" ≫= λ d, getitem d "rpm";
  let g := add_metric g ["rpm"] (GaugeValue v) in
  mret g.

(** Swapfile usage *)
Definition jetson_usage_swap : exn + MetricFamily :=
  let g := GaugeMetricFamily "jetson_usage_swap" "Swapfile usage" ["swap"] in
  v ← getitem (memory self) "SWAP" ≫= λ d, getitem d "used";
  let g := add_metric g ["used"] (GaugeValue v) in
  v ← getitem (memory self) "SWAP" ≫= λ d, getitem d "tot";
  let g := add_metric g ["total"] (GaugeValue v) in
  mret g.

(** [self._jetson.temperature[k] if k in self._jetson.temperature else 0] *)
Definition temperature_or_0 (k : string) : number :=
  if decide (is_Some (temperature self !! k))
  then default (Int 0) (temperature self !! k)
  else Int 0.

(** Sensor temperatures *)
Definition jetson_temperatures : exn + MetricFamily :=
  let g := GaugeMetricFamily "jetson_temperatures" "Sensor temperatures" ["temperature"] in
  let g := add_metric g ["ao"] (GaugeValue (temperature_or_0 "AO")) in
  let g := add_metric g ["gpu"] (GaugeValue (temperature_or_0 "GPU")) in
  let g := add_metric g ["tdiode"] (GaugeValue (temperature_or_0 "Tdiode")) in
  let g := add_metric g ["aux"] (GaugeValue (temperature_or_0 "AUX")) in
  let g := add_metric g ["cpu"] (GaugeValue (temperature_or_0 "CPU")) in
  let g := add_metric g ["thermal"] (GaugeValue (temperature_or_0 "thermal")) in
  let g := add_metric g ["tboard"] (GaugeValue (temperature_or_0 "Tboard")) in
  mret g.

(** [self._jetson.power['rail'][r][q]] *)
Definition rail (r q : string) : exn + number :=
  p ← getitem (power self) "rail";
  d ← getitem p r;
  getitem d q.

(** Power *)
Definition jetson_usage_power : exn + MetricFamily :=
  let g := GaugeMetricFamily "jetson_usage_power" "Power usage" ["power"] in
  v ← rail "CPU" "power"; let g := add_metric g ["cpu"] (GaugeValue v) in
  v ← rail "CV" "power"; let g := add_metric g ["cv"] (GaugeValue v) in
  v ← rail "GPU" "power"; let g := add_metric g ["gpu"] (GaugeValue v) in
  v ← rail "SOC" "power"; let g := add_metric g ["soc"] (GaugeValue v) in
  v ← rail "SYS5V" "power"; let g := add_metric g ["sys5v"] (GaugeValue v) in
  v ← rail "VDDRQ" "power"; let g := add_metric g ["vddrq"] (GaugeValue v) in
  mret g.

Definition jetson_usage_voltage_levels : exn + MetricFamily :=
  let g := GaugeMetricFamily "jetson_usage_voltage_levels" "Voltage" ["voltage"] in
  v ← rail "CPU" "volt"; let g := add_metric g ["cpu"] (GaugeValue v) in
  v ← rail "CV" "volt"; let g := add_metric g ["cv"] (GaugeValue v) in
  v ← rail "GPU" "volt"; let g := add_metric g ["gpu"] (GaugeValue v) in
  v ← rail "SOC" "volt"; let g := add_metric g ["soc"] (GaugeValue v) in
  v ← rail "SYS5V" "volt"; let g := add_metric g ["sys5v"] (GaugeValue v) in
  v ← rail "VDDRQ" "volt"; let g := add_metric g ["vddrq"] (GaugeValue v) in
  mret g.

Definition jetson_usage_current_values : exn + MetricFamily :=
  let g := GaugeMetricFamily "jetson_usage_current_values" "Current" ["current"] in
  v ← rail "CPU" "curr"; let g := add_metric g ["cpu"] (GaugeValue v) in
  v ← rail "CV" "curr"; let g := add_metric g ["cv"] (GaugeValue v) in
  v ← rail "GPU" "curr"; let g := add_metric g ["gpu"] (GaugeValue v) in
  v ← rail "SOC" "curr"; let g := add_metric g ["soc"] (GaugeValue v) in
  v ← rail "SYS5V" "curr"; let g := add_metric g ["sys5v"] (GaugeValue v) in
  v ← rail "VDDRQ" "curr"; let g := add_metric g ["vddrq"] (GaugeValue v) in
  mret g.

(** ** [CustomCollector.collect] *)
Definition collect : Gen () :=
  if ok self then
    i ← eval jetson_info_board; yield i;;
    i ← eval jetson_nvpmode; yield i;;
    g ← eval jetson_uptime; yield g;;
    g ← eval jetson_usage_cpu; yield g;;
    g ← eval jetson_usage_gpu; yield g;;
    g ← eval jetson_usage_ram; yield g;;
    g ← eval jetson_usage_disk; yield g;;
    g ← eval jetson_usage_fan; yield g;;
    g ← eval jetson_usage_swap; yield g;;
    g ← eval jetson_temperatures; yield g;;
    g ← eval jetson_usage_power; yield g;;
    g ← eval jetson_usage_voltage_levels; yield g;;
    g ← eval jetson_usage_current_values; yield g
  else mret ().
End families.

(** ** The generator body as a list of steps *)

(** The thirteen family expressions in the order [collect] evaluates them. *)
Definition blocks (self : jtop) : list (exn + MetricFamily) :=
  [ jetson_info_board self; jetson_nvpmode self; jetson_uptime self;
    jetson_usage_cpu self; jetson_usage_gpu self; jetson_usage_ram self;
    jetson_usage_disk self; jetson_usage_fan self; jetson_usage_swap self;
    jetson_temperatures self; jetson_usage_power self;
    jetson_usage_voltage_levels self; jetson_usage_current_values self ].

(** Evaluate and yield, one step after the other. *)
Fixpoint emit (bs : list (exn + MetricFamily)) : Gen () :=
  match bs with
  | [] => mret ()
  | b :: bs => g ← eval b; yield g;; emit bs
  end.

(** Name and label key of each family, in emission order. *)
Definition family_headers : list (string * list string) :=
  [ ("jetson_info_board", ["board_info"]);
    ("jetson_nvpmode", ["nvpmode"]);
    ("jetson_uptime", ["uptime"]);
    ("jetson_usage_cpu", ["cpu"]);
    ("jetson_usage_gpu", ["gpu"]);
    ("jetson_usage_ram", ["ram"]);
    ("jetson_usage_disk", ["disk"]);
    ("jetson_usage_fan", ["fan"]);
    ("jetson_usage_swap", ["swap"]);
    ("jetson_temperatures", ["temperature"]);
    ("jetson_usage_power", ["power"]);
    ("jetson_usage_voltage_levels", ["voltage"]);
    ("jetson_usage_current_values", ["current"]) ].

Definition header (g : MetricFamily) : string * list string := (name g, labels g).

(** The eleven identity fields, as [board[s][k]], and the keys they are
    published under. *)
Definition identity_fields : list (string * string) :=
  [ ("platform", "Machine"); ("platform", "Distribution");
    ("platform", "Release"); ("hardware", "Jetpack"); ("hardware", "L4T");
    ("hardware", "Module"); ("hardware", "Model"); ("hardware", "Codename");
    ("hardware", "SoC"); ("hardware", "CUDA Arch BIN");
    ("hardware", "Serial Number") ].

Definition identity_keys : list string :=
  [ "machine"; "distribution"; "release"; "jetpack"; "l4t"; "module"; "type";
    "codename"; "soc"; "cuda_arch_bin"; "serial_number" ].

(** ** Which fields a snapshot has *)

Section presence.
Variable self : jtop.

(** [board[s][k]], [cpu['cpu'][i]['freq']['cur']] and the like, read
    straight off the maps. *)
Definition board_at (s k : string) : option string :=
  d ← board self !! s; d !! k.
Definition core_at (i : nat) : option number :=
  l ← cpu self !! "cpu"; c ← l !! i; f ← c !! "freq"; f !! "cur".
Definition gpu_load : option number :=
  d ← gpu self !! "gv11b"; s ← d !! "status"; s !! "load".
Definition memory_at (s k : string) : option number :=
  d ← memory self !! s; d !! k.
Definition fan_at (k : string) : option number :=
  d ← fan self !! "tegra_pwmfan"; d !! k.
Definition rail_at (r q : string) : option number :=
  p ← power self !! "rail"; d ← p !! r; d !! q.

Definition board_identity : Prop :=
  Forall (λ sk, is_Some (board_at sk.1 sk.2)) identity_fields.

Definition eight_cores : Prop :=
  Forall (λ i, is_Some (core_at i)) (seq 0 8).

Definition six_rails : Prop :=
  Forall (λ q,
    Forall (λ r, is_Some (rail_at r q))
      ["CPU"; "CV"; "GPU"; "SOC"; "SYS5V"; "VDDRQ"])
    ["power"; "volt"; "curr"].

(** What the nine families from power mode to temperatures need beyond
    the cores: GPU load, RAM, disk, fan and swap. *)
Definition usage_fields : Prop :=
  is_Some gpu_load ∧
  Forall (λ k, is_Some (memory_at "RAM" k)) ["used"; "shared"; "tot"] ∧
  Forall (λ k, is_Some (disk self !! k))
    ["used"; "total"; "available"; "available_no_root"] ∧
  Forall (λ k, is_Some (fan_at k)) ["speed"; "rpm"] ∧
  Forall (λ k, is_Some (memory_at "SWAP" k)) ["used"; "tot"].

Definition required_fields : Prop :=
  board_identity ∧ eight_cores ∧ usage_fields ∧ six_rails.

(** The session with its core list replaced. *)
Definition set_cores (l : list (gmap string (gmap string number))) : jtop :=
  {| ok := ok self; board := board self; nvpmodel := nvpmodel self;
     uptime := uptime self; cpu := <["cpu" := l]> (cpu self);
     gpu := gpu self; memory := memory self; disk := disk self;
     fan := fan self; temperature := temperature self;
     power := power self |}.
End presence.

Global Instance board_identity_dec self : Decision (board_identity self).
Proof. unfold board_identity. apply _. Defined.
Global Instance eight_cores_dec self : Decision (eight_cores self).
Proof. unfold eight_cores. apply _. Defined.
Global Instance six_rails_dec self : Decision (six_rails self).
Proof. unfold six_rails. apply _. Defined.
Global Instance usage_fields_dec self : Decision (usage_fields self).
Proof. unfold usage_fields. apply _. Defined.
Global Instance required_fields_dec self : Decision (required_fields self).
Proof. unfold required_fields. apply _. Defined.

(** One sample per value, labelled in order. *)
Definition gauge_samples (ls : list string) (vs : list number) : list Sample :=
  zip_with (λ l v, {| label_values := [l]; value := GaugeValue v |}) ls vs.

(** A core entry reporting the frequency [v]. *)
Definition core (v : number) : gmap string (gmap string number) :=
  {[ "freq" := {[ "cur" := v ]} ]}.

(** The current frequency a core entry reports, if it reports one. *)
Definition cur_freq (c : gmap string (gmap string number)) : option number :=
  f ← c !! "freq"; f !! "cur".

(** ** Sample sessions *)

Definition rail_record (p v c : Z) : gmap string number :=
  {[ "power" := Int p; "volt" := Int v; "curr" := Int c ]}.

Definition five_rails : gmap string (gmap string number) :=
  {[ "CPU" := rail_record 1546 18944 81;
     "CV" := rail_record 0 18944 0;
     "GPU" := rail_record 1238 18944 65;
     "SOC" := rail_record 2161 18944 114;
     "SYS5V" := rail_record 2945 5032 585 ]}.

Definition xavier : jtop := {|
  ok := true;
  board := {[
    "platform" := {[ "Machine" := "aarch64";
                     "Distribution" := "Ubuntu 20.04 focal";
                     "Release" := "5.10.104-tegra" ]};
    "hardware" := {[ "Jetpack" := "5.1.1";
                     "L4T" := "35.3.1";
                     "Module" := "NVIDIA Jetson AGX Xavier (32 GB ram)";
                     "Model" := "Jetson-AGX";
                     "Codename" := "Galen";
                     "SoC" := "tegra194";
                     "CUDA Arch BIN" := "7.2";
                     "Serial Number" := "1420921055555" ]} ]};
  nvpmodel := {| NVPModel.name := "MODE_30W_ALL" |};
  uptime := {| days := 2; seconds := 10000 |};
  cpu := {[ "cpu" := core <$> [Int 100; Int 200; Int 300; Int 400;
                                Int 500; Int 600; Int 700; Int 800] ]};
  gpu := {[ "gv11b" := {[ "status" := {[ "load" := Float 12.5 ]} ]} ]};
  memory := {[ "RAM" := {[ "used" := Int 5120000; "shared" := Int 1024;
                           "tot" := Int 32000000 ]};
               "SWAP" := {[ "used" := Int 0; "tot" := Int 16000000 ]} ]};
  disk := {[ "used" := Float 11.5; "total" := Float 27.5;
             "available" := Float 16; "available_no_root" := Float 14.75 ]};
  fan := {[ "tegra_pwmfan" := {[ "speed" := Int 40; "rpm" := Int 1800 ]} ]};
  temperature := {[ "CPU" := Float 45.0; "GPU" := Float 38.2 ]};
  power := {[ "rail" := <["VDDRQ" := rail_record 386 18944 20]> five_rails ]}
|}.

(** The same board, with the session down. *)
Definition xavier_down : jtop :=
  {| ok := false; board := board xavier; nvpmodel := nvpmodel xavier;
     uptime := uptime xavier; cpu := cpu xavier; gpu := gpu xavier;
     memory := memory xavier; disk := disk xavier; fan := fan xavier;
     temperature := temperature xavier; power := power xavier |}.

(** The same board, reporting no VDDRQ rail. *)
Definition xavier_no_vddrq : jtop :=
  {| ok := true; board := board xavier; nvpmodel := nvpmodel xavier;
     uptime := uptime xavier; cpu := cpu xavier; gpu := gpu xavier;
     memory := memory xavier; disk := disk xavier; fan := fan xavier;
     temperature := temperature xavier;
     power := {[ "rail" := five_rails ]} |}.

(** The same board, reporting no serial number. *)
Definition xavier_no_serial : jtop :=
  {| ok := true;
     board := alter (delete "Serial Number") "hardware" (board xavier);
     nvpmodel := nvpmodel xavier;
     uptime := uptime xavier; cpu := cpu xavier; gpu := gpu xavier;
     memory := memory xavier; disk := disk xavier; fan := fan xavier;
     temperature := temperature xavier; power := power xavier |}.

(** A six-core and a twelve-core board. *)
Definition six_core_list : list (gmap string (gmap string number)) :=
  core <$> [Int 100; Int 200; Int 300; Int 400; Int 500; Int 600].

Definition twelve_core_list : list (gmap string (gmap string number)) :=
  core <$> [Int 100; Int 200; Int 300; Int 400; Int 500; Int 600;
            Int 700; Int 800; Int 900; Int 1000; Int 1100; Int 1200].

(** ** Gauge families as label/expression lists *)

(** [g] with further samples appended. *)
Definition add_samples (g : MetricFamily) (ss : list Sample) : MetricFamily :=
  {| typ := typ g; name := name g; documentation := documentation g;
     labels := labels g; samples := samples g ++ ss |}.

(** Evaluate the expressions left to right, adding one gauge sample for each;
    the first one that raises ends the family. *)
Fixpoint fill (g : MetricFamily) (items : list (string * (exn + number)))
  : exn + MetricFamily :=
  match items with
  | [] => mret g
  | (l, x) :: items => v ← x; fill (add_metric g [l] (GaugeValue v)) items
  end.

Section items.
Variable self : jtop.

Definition cpu_items : list (string * (exn + number)) :=
  [ ("cpu_1", cpu_freq_cur self 0); ("cpu_2", cpu_freq_cur self 1);
    ("cpu_3", cpu_freq_cur self 2); ("cpu_4", cpu_freq_cur self 3);
    ("cpu_5", cpu_freq_cur self 4); ("cpu_6", cpu_freq_cur self 5);
    ("cpu_7", cpu_freq_cur self 6); ("cpu_8", cpu_freq_cur self 7) ].

Definition gpu_items : list (string * (exn + number)) :=
  [ ("val", getitem (gpu self) "gv11b" ≫= λ d,
            getitem d "status" ≫= λ d, getitem d "load") ].

Definition ram_items : list (string * (exn + number)) :=
  [ ("used", getitem (memory self) "RAM" ≫= λ d, getitem d "used");
    ("shared", getitem (memory self) "RAM" ≫= λ d, getitem d "shared");
    ("total", getitem (memory self) "RAM" ≫= λ d, getitem d "tot") ].

Definition disk_items : list (string * (exn + number)) :=
  [ ("used", getitem (disk self) "used");
    ("total", getitem (disk self) "total");
    ("available", getitem (disk self) "available");
    ("available_no_root", getitem (disk self) "available_no_root") ].

Definition fan_items : list (string * (exn + number)) :=
  [ ("speed", getitem (fan self) "tegra_pwmfan" ≫= λ d, getitem d "speed");
    ("rpm", getitem (fan self) "tegra_pwmfan" ≫= λ d, getitem d "rpm") ].

Definition swap_items : list (string * (exn + number)) :=
  [ ("used", getitem (memory self) "SWAP" ≫= λ d, getitem d "used");
    ("total", getitem (memory self) "SWAP" ≫= λ d, getitem d "tot") ].

Definition rail_items (q : string) : list (string * (exn + number)) :=
  [ ("cpu", rail self "CPU" q); ("cv", rail self "CV" q);
    ("gpu", rail self "GPU" q); ("soc", rail self "SOC" q);
    ("sys5v", rail self "SYS5V" q); ("vddrq", rail self "VDDRQ" q) ].
End items.

Definition core_labels : list string :=
  ["cpu_1"; "cpu_2"; "cpu_3"; "cpu_4"; "cpu_5"; "cpu_6"; "cpu_7"; "cpu_8"].

Definition sensor_labels : list string :=
  ["ao"; "gpu"; "tdiode"; "aux"; "cpu"; "thermal"; "tboard"].

Definition sensor_names : list string :=
  ["AO"; "GPU"; "Tdiode"; "AUX"; "CPU"; "thermal"; "Tboard"].

Definition rail_labels : list string :=
  ["cpu"; "cv"; "gpu"; "soc"; "sys5v"; "vddrq"].

Definition rail_names : list string :=
  ["CPU"; "CV"; "GPU"; "SOC"; "SYS5V"; "VDDRQ"].

(** The label values of the samples of each family, in emission order. *)
Definition family_sample_labels : list (list string) :=
  [ ["info"]; ["mode"]; ["days"; "hours"; "minutes"]; core_labels; ["val"];
    ["used"; "shared"; "total"];
    ["used"; "total"; "available"; "available_no_root"];
    ["speed"; "rpm"]; ["used"; "total"]; sensor_labels;
    rail_labels; rail_labels; rail_labels ].

(** What the temperature family reports for a sensor. *)
Definition sensor_reading (self : jtop) (k : string) : number :=
  default (Int 0) (temperature self !! k).

(** Two sessions in which every field [collect] reads is the same, whatever
    else they hold. *)
Definition same_reads (a b : jtop) : Prop :=
  ok a = ok b ∧
  Forall (λ sk, board_at a sk.1 sk.2 = board_at b sk.1 sk.2) identity_fields ∧
  nvpmodel a = nvpmodel b ∧
  uptime a = uptime b ∧
  Forall (λ i, core_at a i = core_at b i) (seq 0 8) ∧
  gpu_load a = gpu_load b ∧
  Forall (λ k, memory_at a "RAM" k = memory_at b "RAM" k)
    ["used"; "shared"; "tot"] ∧
  Forall (λ k, disk a !! k = disk b !! k)
    ["used"; "total"; "available"; "available_no_root"] ∧
  Forall (λ k, fan_at a k = fan_at b k) ["speed"; "rpm"] ∧
  Forall (λ k, memory_at a "SWAP" k = memory_at b "SWAP" k) ["used"; "tot"] ∧
  Forall (λ k, temperature a !! k = temperature b !! k) sensor_names ∧
  Forall (λ q, Forall (λ r, rail_at a r q = rail_at b r q) rail_names)
    ["power"; "volt"; "curr"].

(** The sample board with fields nothing reads: a ninth core, a further
    sensor, a further rail, the total CPU load. *)
Definition xavier_more : jtop := {|
  ok := true;
  board := <["libraries" := {[ "CUDA" := "11.4.315" ]}]> (board xavier);
  nvpmodel := nvpmodel xavier;
  uptime := uptime xavier;
  cpu := {[ "total" := [];
            "cpu" := core <$> [Int 100; Int 200; Int 300; Int 400; Int 500;
                               Int 600; Int 700; Int 800; Int 900] ]};
  gpu := gpu xavier;
  memory := <["EMC" := {[ "cur" := Int 2133 ]}]> (memory xavier);
  disk := <["unit" := Int 1]> (disk xavier);
  fan := fan xavier;
  temperature := <["PMIC" := Float 50]> (temperature xavier);
  power := {[ "rail" := <["VDDRQ" := rail_record 386 18944 20]>
                          (<["VDD_IN" := rail_record 9000 19000 470]> five_rails);
              "tot" := {[ "name" := rail_record 0 0 0 ]} ]}
|}.

(** Every key [collect] subscripts a dict with. *)
Definition subscript_keys : list string :=
  [ "platform"; "Machine"; "Distribution"; "Release"; "hardware"; "Jetpack";
    "L4T"; "Module"; "Model"; "Codename"; "SoC"; "CUDA Arch BIN";
    "Serial Number"; "cpu"; "freq"; "cur"; "gv11b"; "status"; "load"; "RAM";
    "used"; "shared"; "tot"; "total"; "available"; "available_no_root";
    "tegra_pwmfan"; "speed"; "rpm"; "SWAP"; "rail"; "CPU"; "CV"; "GPU"; "SOC";
    "SYS5V"; "VDDRQ"; "power"; "volt"; "curr" ].

(** The sample board with its GPU under another unit name. *)
Definition xavier_other_gpu : jtop :=
  {| ok := true; board := board xavier; nvpmodel := nvpmodel xavier;
     uptime := uptime xavier; cpu := cpu xavier;
     gpu := {[ "ga10b" := {[ "status" := {[ "load" := Float 12.5 ]} ]} ]};
     memory := memory xavier; disk := disk xavier; fan := fan xavier;
     temperature := temperature xavier; power := power xavier |}.

(** The sample board with its fan under another controller name. *)
Definition xavier_other_fan : jtop :=
  {| ok := true; board := board xavier; nvpmodel := nvpmodel xavier;
     uptime := uptime xavier; cpu := cpu xavier; gpu := gpu xavier;
     memory := memory xavier; disk := disk xavier;
     fan := {[ "pwmfan" := {[ "speed" := Int 40; "rpm" := Int 1800 ]} ]};
     temperature := temperature xavier; power := power xavier |}.

(** The sample board reporting no platform section. *)
Definition xavier_no_platform : jtop :=
  {| ok := true; board := delete "platform" (board xavier);
     nvpmodel := nvpmodel xavier;
     uptime := uptime xavier; cpu := cpu xavier; gpu := gpu xavier;
     memory := memory xavier; disk := disk xavier; fan := fan xavier;
     temperature := temperature xavier; power := power xavier |}.

(** ** The board-info family as a list of expressions *)

(** Evaluate the expressions left to right; the first one that raises ends
    the evaluation. *)
Fixpoint eval_all (xs : list (exn + string)) : exn + list string :=
  match xs with
  | [] => mret []
  | x :: xs => v ← x; vs ← eval_all xs; mret (v :: vs)
  end.

(** [board[s][k]] for the eleven identity fields, in the order the dict
    display of [collect] lists them. *)
Definition board_items (self : jtop) : list (exn + string) :=
  (λ sk, getitem (board self) sk.1 ≫= λ d, getitem d sk.2) <$> identity_fields.

(** The board-info family for the eleven values. *)
Definition board_info_family (vs : list string) : MetricFamily :=
  {| typ := info; name := "jetson_info_board";
     documentation := "Board sys info"; labels := ["board_info"];
     samples := [ {| label_values := ["info"];
                     value := InfoValue (zip identity_keys vs) |} ] |}.

(** A gauge family with one sample per label value. *)
Definition gauge_family (n doc l : string) (ls : list string)
    (vs : list number) : MetricFamily :=
  {| typ := gauge; name := n; documentation := doc; labels := [l];
     samples := gauge_samples ls vs |}.

(** The session with its temperature mapping replaced. *)
Definition set_temperature (self : jtop) (t : gmap string number) : jtop :=
  {| ok := ok self; board := board self; nvpmodel := nvpmodel self;
     uptime := uptime self; cpu := cpu self; gpu := gpu self;
     memory := memory self; disk := disk self; fan := fan self;
     temperature := t; power := power self |}.

(** ** Readings that compare equal *)

(** Python's [v == 0] for an int or a float: true of 0, 0.0 and -0.0. *)
Definition is_zero (v : number) : bool :=
  match v with
  | Int z => (z =? 0)%Z
  | Float f => (f =? 0)%float
  end.

(** Two readings that are the same value, or both compare equal to 0. *)
Definition same_reading (a b : number) : Prop :=
  a = b ∨ (is_zero a = true ∧ is_zero b = true).

Definition same_value (a b : metric_value) : Prop :=
  match a, b with
  | GaugeValue x, GaugeValue y => same_reading x y
  | InfoValue d, InfoValue d' => d = d'
  | _, _ => False
  end.

Definition same_sample (s t : Sample) : Prop :=
  label_values s = label_values t ∧ same_value (value s) (value t).

Definition same_family (f g : MetricFamily) : Prop :=
  typ f = typ g ∧ name f = name g ∧ documentation f = documentation g ∧
  labels f = labels g ∧ Forall2 same_sample (samples f) (samples g).

(** Two scrapes that end the same way and yield the same families, record
    for record, up to readings that both compare equal to 0. *)
Definition same_scrape (a b : Gen ()) : Prop :=
  outcome a = outcome b ∧ Forall2 same_family (yielded a) (yielded b).

(** * Properties *)

(** ** Subscripts and the error monad *)

Lemma exc_bind_inr {A B} (m : exn + A) (f : A → exn + B) (b : B) :
  m ≫= f = inr b ↔ ∃ a, m = inr a ∧ f a = inr b.
Proof.
  destruct m as [e|a]; simpl; split.
  - discriminate.
  - intros (a & Ha & _). discriminate.
  - eauto.
  - intros (a' & Ha & Hf). by simplify_eq.
Qed.

Lemma getitem_Some {V} (d : gmap string V) (k : string) (v : V) :
  d !! k = Some v → getitem d k = inr v.
Proof. unfold getitem. by intros ->. Qed.

Lemma getitem_None {V} (d : gmap string V) (k : string) :
  d !! k = None → getitem d k = inl (KeyError k).
Proof. unfold getitem. by intros ->. Qed.

Lemma getitem_inr {V} (d : gmap string V) (k : string) (v : V) :
  getitem d k = inr v ↔ d !! k = Some v.
Proof.
  split; [|apply getitem_Some].
  unfold getitem. destruct (d !! k); naive_solver.
Qed.

Lemma getindex_inr {V} (l : list V) (i : nat) (v : V) :
  getindex l i = inr v ↔ l !! i = Some v.
Proof. unfold getindex. destruct (l !! i); naive_solver. Qed.

(** A subscript chain evaluates exactly when the field is there. *)
Lemma board_expr self (s k v : string) :
  (getitem (board self) s ≫= λ d, getitem d k) = inr v ↔
  board_at self s k = Some v.
Proof.
  unfold board_at. rewrite exc_bind_inr. setoid_rewrite getitem_inr.
  destruct (board self !! s); simpl; naive_solver.
Qed.

Lemma memory_expr self (s k : string) (v : number) :
  (getitem (memory self) s ≫= λ d, getitem d k) = inr v ↔
  memory_at self s k = Some v.
Proof.
  unfold memory_at. rewrite exc_bind_inr. setoid_rewrite getitem_inr.
  destruct (memory self !! s); simpl; naive_solver.
Qed.

Lemma fan_expr self (k : string) (v : number) :
  (getitem (fan self) "tegra_pwmfan" ≫= λ d, getitem d k) = inr v ↔
  fan_at self k = Some v.
Proof.
  unfold fan_at. rewrite exc_bind_inr. setoid_rewrite getitem_inr.
  destruct (fan self !! "tegra_pwmfan"); simpl; naive_solver.
Qed.

Lemma gpu_expr self (v : number) :
  (getitem (gpu self) "gv11b" ≫= λ d, getitem d "status" ≫= λ d, getitem d "load")
    = inr v ↔
  gpu_load self = Some v.
Proof.
  unfold gpu_load. rewrite exc_bind_inr.
  setoid_rewrite exc_bind_inr. setoid_rewrite getitem_inr.
  destruct (gpu self !! "gv11b") as [d|] eqn:?; simpl; [|naive_solver].
  destruct (d !! "status") eqn:?; simpl; naive_solver.
Qed.

Lemma rail_expr self (r q : string) (v : number) :
  rail self r q = inr v ↔ rail_at self r q = Some v.
Proof.
  unfold rail, rail_at. rewrite exc_bind_inr.
  setoid_rewrite exc_bind_inr. setoid_rewrite getitem_inr.
  destruct (power self !! "rail") as [p|] eqn:?; simpl; [|naive_solver].
  destruct (p !! r) eqn:?; simpl; naive_solver.
Qed.

Lemma cpu_expr self (i : nat) (v : number) :
  cpu_freq_cur self i = inr v ↔ core_at self i = Some v.
Proof.
  unfold cpu_freq_cur, core_at. rewrite exc_bind_inr.
  repeat setoid_rewrite exc_bind_inr.
  setoid_rewrite getitem_inr. setoid_rewrite getindex_inr.
  destruct (cpu self !! "cpu") as [l|] eqn:?; simpl; [|naive_solver].
  destruct (l !! i) as [c|] eqn:?; simpl; [|naive_solver].
  destruct (c !! "freq") eqn:?; simpl; naive_solver.
Qed.

(** An expression that does not evaluate raises. *)
Lemma not_inr_inl {A} (x : exn + A) :
  (∀ a, x ≠ inr a) → ∃ e, x = inl e.
Proof. destruct x; naive_solver. Qed.

Lemma rail_missing self (r q : string) :
  rail_at self r q = None → ∃ e, rail self r q = inl e.
Proof.
  intros H. apply not_inr_inl. intros v Hv.
  apply rail_expr in Hv. congruence.
Qed.

(** ** Families built sample by sample *)

Lemma add_metric_add_samples g l v ss :
  add_samples (add_metric g [l] (GaugeValue v)) ss =
  add_samples g ({| label_values := [l]; value := GaugeValue v |} :: ss).
Proof. unfold add_samples, add_metric. simpl. by rewrite <-app_assoc. Qed.

Lemma add_samples_nil g : add_samples g [] = g.
Proof. destruct g. unfold add_samples. simpl. by rewrite app_nil_r. Qed.

(** A family is filled exactly when every expression evaluates, and then it
    carries one sample per expression, in order. *)
Lemma fill_inr g items f :
  fill g items = inr f ↔
  ∃ vs, Forall2 (λ it v, it.2 = inr v) items vs ∧
        f = add_samples g (gauge_samples items.*1 vs).
Proof.
  revert g. induction items as [|[l x] items IH]; intros g; simpl.
  - split.
    + intros [= <-]. exists []. split; [constructor|].
      by rewrite add_samples_nil.
    + intros (vs & Hvs & ->). apply Forall2_nil_inv_l in Hvs as ->.
      simpl. by rewrite add_samples_nil.
  - rewrite exc_bind_inr. split.
    + intros (v & -> & Hf). apply IH in Hf as (vs & Hvs & ->).
      exists (v :: vs). split; [by constructor|].
      by rewrite add_metric_add_samples.
    + intros (vs & Hvs & ->).
      apply Forall2_cons_inv_l in Hvs as (v & vs' & Hv & Hvs & ->).
      exists v. split; [done|]. apply IH. exists vs'. split; [done|].
      by rewrite add_metric_add_samples.
Qed.

(** The first expression that raises decides the error. *)
Lemma fill_inl g items e :
  fill g items = inl e ↔
  ∃ pre l post, items = pre ++ (l, inl e) :: post ∧
                Forall (λ it, ∃ v, it.2 = inr v) pre.
Proof.
  revert g. induction items as [|[l x] items IH]; intros g; simpl.
  - split; [discriminate|]. intros (pre & l & post & H & _).
    by destruct pre.
  - destruct x as [e'|v]; simpl.
    + split.
      * intros [= ->]. exists [], l, items. by split.
      * intros ([|[l' x'] pre] & l0 & post & H & Hpre); simplify_eq/=; [done|].
        apply Forall_cons in Hpre as [[v Hv] _]. simplify_eq/=.
    + rewrite IH. split.
      * intros (pre & l0 & post & -> & Hpre).
        exists ((l, inr v) :: pre), l0, post. split; [done|].
        constructor; [by eexists|done].
      * intros ([|[l' x'] pre] & l0 & post & H & Hpre); simplify_eq/=.
        apply Forall_cons in Hpre as [_ Hpre]. eauto.
Qed.

Lemma fill_raises g items l e :
  (l, inl e) ∈ items → ∃ e', fill g items = inl e'.
Proof.
  intros Hin. destruct (fill g items) as [e'|f] eqn:Hf; [eauto|].
  apply fill_inr in Hf as (vs & Hvs & _).
  apply list_elem_of_lookup in Hin as [i Hi].
  destruct (Forall2_lookup_l _ _ _ _ _ Hvs Hi) as (v & _ & Hv).
  discriminate.
Qed.

Lemma fill_header g items f :
  fill g items = inr f →
  typ f = typ g ∧ name f = name g ∧ documentation f = documentation g ∧
  labels f = labels g.
Proof. intros (vs & _ & ->)%fill_inr. done. Qed.

(** The gauge families of [collect] are fills. *)
Lemma jetson_usage_cpu_fill self :
  jetson_usage_cpu self =
  fill (GaugeMetricFamily "jetson_usage_cpu" "CPU % schedutil" ["cpu"])
       (cpu_items self).
Proof. reflexivity. Qed.

Lemma jetson_usage_gpu_fill self :
  jetson_usage_gpu self =
  fill (GaugeMetricFamily "jetson_usage_gpu" "GPU % schedutil" ["gpu"])
       (gpu_items self).
Proof. reflexivity. Qed.

Lemma jetson_usage_ram_fill self :
  jetson_usage_ram self =
  fill (GaugeMetricFamily "jetson_usage_ram" "Memory usage" ["ram"])
       (ram_items self).
Proof. reflexivity. Qed.

Lemma jetson_usage_disk_fill self :
  jetson_usage_disk self =
  fill (GaugeMetricFamily "jetson_usage_disk" "Disk space usage" ["disk"])
       (disk_items self).
Proof. reflexivity. Qed.

Lemma jetson_usage_fan_fill self :
  jetson_usage_fan self =
  fill (GaugeMetricFamily "jetson_usage_fan" "Fan usage" ["fan"])
       (fan_items self).
Proof. reflexivity. Qed.

Lemma jetson_usage_swap_fill self :
  jetson_usage_swap self =
  fill (GaugeMetricFamily "jetson_usage_swap" "Swapfile usage" ["swap"])
       (swap_items self).
Proof. reflexivity. Qed.

Lemma jetson_usage_power_fill self :
  jetson_usage_power self =
  fill (GaugeMetricFamily "jetson_usage_power" "Power usage" ["power"])
       (rail_items self "power").
Proof. reflexivity. Qed.

Lemma jetson_usage_voltage_levels_fill self :
  jetson_usage_voltage_levels self =
  fill (GaugeMetricFamily "jetson_usage_voltage_levels" "Voltage" ["voltage"])
       (rail_items self "volt").
Proof. reflexivity. Qed.

Lemma jetson_usage_current_values_fill self :
  jetson_usage_current_values self =
  fill (GaugeMetricFamily "jetson_usage_current_values" "Current" ["current"])
       (rail_items self "curr").
Proof. reflexivity. Qed.

(** ** The generator, step by step *)

Lemma emit_cons_inr f bs :
  emit (inr f :: bs) = MkGen (f :: yielded (emit bs)) (outcome (emit bs)).
Proof. reflexivity. Qed.

Lemma emit_cons_inl e bs : emit (inl e :: bs) = MkGen [] (inl e).
Proof. reflexivity. Qed.

Lemma emit_inr fs : emit (inr <$> fs) = MkGen fs (inr ()).
Proof.
  induction fs as [|f fs IH]; [done|].
  by rewrite fmap_cons, emit_cons_inr, IH.
Qed.

Lemma emit_inl fs e rest :
  emit ((inr <$> fs) ++ inl e :: rest) = MkGen fs (inl e).
Proof.
  induction fs as [|f fs IH]; [done|].
  by rewrite fmap_cons, <-app_comm_cons, emit_cons_inr, IH.
Qed.

(** Every run is a run of successes, ended by the list or by a raise. *)
Lemma steps_cases (bs : list (exn + MetricFamily)) :
  (∃ fs, bs = inr <$> fs) ∨ (∃ fs e rest, bs = (inr <$> fs) ++ inl e :: rest).
Proof.
  induction bs as [|[e|f] bs IH].
  - left. by exists [].
  - right. by exists [], e, bs.
  - destruct IH as [(fs & ->)|(fs & e & rest & ->)].
    + left. by exists (f :: fs).
    + right. by exists (f :: fs), e, rest.
Qed.

Lemma collect_emit self : ok self = true → collect self = emit (blocks self).
Proof.
  intros Hok. unfold collect, blocks. rewrite Hok.
  destruct (jetson_info_board self); [reflexivity|].
  destruct (jetson_nvpmode self); [reflexivity|].
  destruct (jetson_uptime self); [reflexivity|].
  destruct (jetson_usage_cpu self); [reflexivity|].
  destruct (jetson_usage_gpu self); [reflexivity|].
  destruct (jetson_usage_ram self); [reflexivity|].
  destruct (jetson_usage_disk self); [reflexivity|].
  destruct (jetson_usage_fan self); [reflexivity|].
  destruct (jetson_usage_swap self); [reflexivity|].
  destruct (jetson_temperatures self); [reflexivity|].
  destruct (jetson_usage_power self); [reflexivity|].
  destruct (jetson_usage_voltage_levels self); [reflexivity|].
  destruct (jetson_usage_current_values self); reflexivity.
Qed.

Lemma collect_not_ok self : ok self = false → collect self = MkGen [] (inr ()).
Proof. unfold collect. by intros ->. Qed.

Lemma collect_cases self :
  ok self = true →
  (∃ fs, blocks self = inr <$> fs ∧ collect self = MkGen fs (inr ())) ∨
  (∃ fs e rest, blocks self = (inr <$> fs) ++ inl e :: rest ∧
                collect self = MkGen fs (inl e)).
Proof.
  intros Hok. rewrite (collect_emit _ Hok).
  destruct (steps_cases (blocks self)) as [(fs & ->)|(fs & e & rest & ->)].
  - left. exists fs. by rewrite emit_inr.
  - right. exists fs, e, rest. by rewrite emit_inl.
Qed.

(** What was yielded at position [i] is the value of step [i], and every
    earlier step had a value too. *)
Lemma yielded_lookup self i f :
  yielded (collect self) !! i = Some f → blocks self !! i = Some (inr f).
Proof.
  destruct (ok self) eqn:Hok.
  - destruct (collect_cases _ Hok) as [(fs & -> & ->)|(fs & e & rest & -> & ->)];
      simpl; intros Hi.
    + by rewrite list_lookup_fmap, Hi.
    + rewrite lookup_app_l by (rewrite length_fmap; by eapply lookup_lt_Some).
      by rewrite list_lookup_fmap, Hi.
  - rewrite (collect_not_ok _ Hok). done.
Qed.

Lemma yielded_length self : (length (yielded (collect self)) ≤ 13)%nat.
Proof.
  destruct (ok self) eqn:Hok; [|by rewrite (collect_not_ok _ Hok); simpl; lia].
  assert (length (blocks self) = 13%nat) as Hlen by done.
  destruct (collect_cases _ Hok) as [(fs & Hb & ->)|(fs & e & rest & Hb & ->)];
    rewrite Hb in Hlen; simpl.
  - rewrite length_fmap in Hlen. lia.
  - rewrite length_app, length_fmap in Hlen. lia.
Qed.

(** The run raises exactly the error of its first failing step. *)
Lemma collect_raises self n e :
  ok self = true →
  blocks self !! n = Some (inl e) →
  (∀ i, (i < n)%nat → ∃ f, blocks self !! i = Some (inr f)) →
  outcome (collect self) = inl e ∧ length (yielded (collect self)) = n.
Proof.
  intros Hok Hn Hpre.
  destruct (collect_cases _ Hok) as [(fs & Hb & ->)|(fs & e' & rest & Hb & ->)];
    rewrite Hb in Hn, Hpre; simpl.
  - rewrite list_lookup_fmap in Hn. by destruct (fs !! n).
  - assert (length (inr <$> fs : list (exn + MetricFamily)) = length fs) as Hl
      by apply length_fmap.
    destruct (decide (n < length fs)%nat) as [Hlt|Hge].
    { rewrite lookup_app_l in Hn by lia.
      rewrite list_lookup_fmap in Hn. by destruct (fs !! n). }
    destruct (decide (n = length fs)) as [->|Hne].
    { rewrite list_lookup_middle in Hn by done. by simplify_eq. }
    destruct (Hpre (length fs)) as [f Hf]; [lia|].
    rewrite list_lookup_middle in Hf by done. discriminate.
Qed.

(** ** The families one by one *)

Ltac inv_Forall2 H :=
  repeat (apply Forall2_cons_inv_l in H as (? & ? & ? & H & ->));
  apply Forall2_nil_inv_l in H as ->.

Ltac inv_Forall H :=
  repeat (apply Forall_cons in H as [? H]); clear H.

(** The board-info family is built exactly when the eleven identity fields
    are there, and then carries them under the eleven fixed keys. *)
Lemma jetson_info_board_inr self f :
  jetson_info_board self = inr f ↔
  ∃ vs, Forall2 (λ sk v, board_at self sk.1 sk.2 = Some v) identity_fields vs ∧
        f = {| typ := info; name := "jetson_info_board";
               documentation := "Board sys info"; labels := ["board_info"];
               samples := [ {| label_values := ["info"];
                               value := InfoValue (zip identity_keys vs) |} ] |}.
Proof.
  unfold jetson_info_board. split.
  - intros H.
    repeat (apply exc_bind_inr in H as (? & ?%board_expr & H); simpl in H).
    injection H as <-.
    eexists [_; _; _; _; _; _; _; _; _; _; _]. split; [|reflexivity].
    repeat constructor; done.
  - intros (vs & H & ->). inv_Forall2 H. simpl in *.
    repeat match goal with
           | H : board_at _ _ _ = Some _ |- _ =>
               apply board_expr in H; rewrite H; clear H; simpl
           end.
    reflexivity.
Qed.

Lemma jetson_info_board_identity self :
  (∃ f, jetson_info_board self = inr f) ↔ board_identity self.
Proof.
  unfold board_identity. split.
  - intros (f & (vs & H & _)%jetson_info_board_inr).
    eapply Forall2_Forall_l; [exact H|]. apply Forall_true. intros v sk. eauto.
  - intros H. setoid_rewrite jetson_info_board_inr.
    assert (∃ vs, Forall2 (λ sk v, board_at self sk.1 sk.2 = Some v)
                          identity_fields vs) as [vs Hvs]; [|eauto].
    induction H as [|sk l [v Hv] _ [vs IH]]; [by exists []|].
    exists (v :: vs). by constructor.
Qed.

(** Only a missing key ends the board-info family. *)
Lemma jetson_info_board_inl self e :
  jetson_info_board self = inl e → ∃ k, e = KeyError k.
Proof.
  unfold jetson_info_board, getitem, mbind, exc_bind.
  repeat (case_match; simpl; try by (intros; simplify_eq; eauto)).
Qed.

(** Name and label key of every family that gets built. *)
Lemma blocks_headers self :
  Forall2 (λ b h, ∀ f, b = inr f → header f = h) (blocks self) family_headers.
Proof.
  unfold blocks, family_headers.
  repeat (constructor 2); [..|constructor]; intros f Hf.
  - by apply jetson_info_board_inr in Hf as (vs & _ & ->).
  - by injection Hf as <-.
  - by injection Hf as <-.
  - rewrite jetson_usage_cpu_fill in Hf. by apply fill_inr in Hf as (? & _ & ->).
  - rewrite jetson_usage_gpu_fill in Hf. by apply fill_inr in Hf as (? & _ & ->).
  - rewrite jetson_usage_ram_fill in Hf. by apply fill_inr in Hf as (? & _ & ->).
  - rewrite jetson_usage_disk_fill in Hf. by apply fill_inr in Hf as (? & _ & ->).
  - rewrite jetson_usage_fan_fill in Hf. by apply fill_inr in Hf as (? & _ & ->).
  - rewrite jetson_usage_swap_fill in Hf. by apply fill_inr in Hf as (? & _ & ->).
  - by injection Hf as <-.
  - rewrite jetson_usage_power_fill in Hf. by apply fill_inr in Hf as (? & _ & ->).
  - rewrite jetson_usage_voltage_levels_fill in Hf.
    by apply fill_inr in Hf as (? & _ & ->).
  - rewrite jetson_usage_current_values_fill in Hf.
    by apply fill_inr in Hf as (? & _ & ->).
Qed.

Lemma yielded_header self i f :
  yielded (collect self) !! i = Some f →
  family_headers !! i = Some (header f).
Proof.
  intros Hb%yielded_lookup.
  destruct (Forall2_lookup_l _ _ _ _ _ (blocks_headers self) Hb) as (h & Hh & Hf).
  by rewrite (Hf f eq_refl).
Qed.

(** The names of the yielded families are an initial segment of the fixed
    list, whatever the snapshot holds. *)
Lemma yielded_headers self :
  header <$> yielded (collect self) =
  take (length (yielded (collect self))) family_headers.
Proof.
  apply list_eq. intros i. rewrite list_lookup_fmap.
  destruct (yielded (collect self) !! i) as [f|] eqn:Hi; simpl.
  - rewrite lookup_take_lt by (by eapply lookup_lt_Some).
    symmetry. by eapply yielded_header.
  - apply lookup_ge_None in Hi. symmetry. apply lookup_ge_None.
    rewrite length_take. lia.
Qed.

Lemma fill_is_inr g items :
  (∃ f, fill g items = inr f) ↔ Forall (λ it, ∃ v, it.2 = inr v) items.
Proof.
  setoid_rewrite fill_inr. split.
  - intros (f & vs & H & _). eapply Forall2_Forall_l; [exact H|].
    apply Forall_true. intros v it. eauto.
  - intros H.
    assert (∃ vs, Forall2 (λ it v, it.2 = inr v) items vs) as [vs Hvs];
      [|eauto].
    induction H as [|it l [v Hv] _ [vs IH]]; [by exists []|].
    exists (v :: vs). by constructor.
Qed.

Lemma core_is_Some self i :
  is_Some (core_at self i) ↔ ∃ v, cpu_freq_cur self i = inr v.
Proof. unfold is_Some. by setoid_rewrite cpu_expr. Qed.

Lemma gpu_is_Some self :
  is_Some (gpu_load self) ↔
  ∃ v, (getitem (gpu self) "gv11b" ≫= λ d,
        getitem d "status" ≫= λ d, getitem d "load") = inr v.
Proof. unfold is_Some. by setoid_rewrite gpu_expr. Qed.

Lemma memory_is_Some self s k :
  is_Some (memory_at self s k) ↔
  ∃ v, (getitem (memory self) s ≫= λ d, getitem d k) = inr v.
Proof. unfold is_Some. by setoid_rewrite memory_expr. Qed.

Lemma disk_is_Some self k :
  is_Some (disk self !! k) ↔ ∃ v, getitem (disk self) k = inr v.
Proof. unfold is_Some. by setoid_rewrite getitem_inr. Qed.

Lemma fan_is_Some self k :
  is_Some (fan_at self k) ↔
  ∃ v, (getitem (fan self) "tegra_pwmfan" ≫= λ d, getitem d k) = inr v.
Proof. unfold is_Some. by setoid_rewrite fan_expr. Qed.

Lemma rail_is_Some self r q :
  is_Some (rail_at self r q) ↔ ∃ v, rail self r q = inr v.
Proof. unfold is_Some. by setoid_rewrite rail_expr. Qed.

(** Each family is built exactly when its fields are there. *)
Lemma jetson_usage_cpu_ok self :
  (∃ f, jetson_usage_cpu self = inr f) ↔ eight_cores self.
Proof.
  rewrite jetson_usage_cpu_fill, fill_is_inr.
  unfold eight_cores, cpu_items. simpl.
  rewrite !Forall_cons, !Forall_nil. simpl.
  by rewrite !core_is_Some.
Qed.

Lemma rail_family_ok self g q :
  (∃ f, fill g (rail_items self q) = inr f) ↔
  Forall (λ r, is_Some (rail_at self r q)) rail_names.
Proof.
  rewrite fill_is_inr. unfold rail_items, rail_names.
  rewrite !Forall_cons, !Forall_nil. simpl.
  by rewrite !rail_is_Some.
Qed.

Lemma usage_families_ok self :
  ((∃ f, jetson_usage_gpu self = inr f) ∧
   (∃ f, jetson_usage_ram self = inr f) ∧
   (∃ f, jetson_usage_disk self = inr f) ∧
   (∃ f, jetson_usage_fan self = inr f) ∧
   (∃ f, jetson_usage_swap self = inr f)) ↔ usage_fields self.
Proof.
  rewrite jetson_usage_gpu_fill, jetson_usage_ram_fill, jetson_usage_disk_fill,
    jetson_usage_fan_fill, jetson_usage_swap_fill, !fill_is_inr.
  unfold usage_fields, gpu_items, ram_items, disk_items, fan_items, swap_items.
  rewrite !Forall_cons, !Forall_nil. simpl.
  rewrite gpu_is_Some, !memory_is_Some, !disk_is_Some, !fan_is_Some.
  tauto.
Qed.

Lemma rail_families_ok self :
  ((∃ f, jetson_usage_power self = inr f) ∧
   (∃ f, jetson_usage_voltage_levels self = inr f) ∧
   (∃ f, jetson_usage_current_values self = inr f)) ↔ six_rails self.
Proof.
  rewrite jetson_usage_power_fill, jetson_usage_voltage_levels_fill,
    jetson_usage_current_values_fill, !rail_family_ok.
  unfold six_rails, rail_names. rewrite !Forall_cons, !Forall_nil. tauto.
Qed.

(** All thirteen steps have a value exactly when every required field is
    there. *)
Lemma blocks_ok self :
  (∃ fs, blocks self = inr <$> fs) ↔ required_fields self.
Proof.
  unfold required_fields.
  rewrite <-jetson_info_board_identity, <-jetson_usage_cpu_ok,
    <-usage_families_ok, <-rail_families_ok.
  split.
  - intros (fs & Hb). unfold blocks in Hb.
    do 13 (destruct fs as [|? fs]; [discriminate|]).
    destruct fs; [|discriminate].
    injection Hb as -> _ _ -> -> -> -> -> -> _ -> -> ->.
    split_and!; eauto.
  - intros ([f1 H1] & [f4 H4] & ([f5 H5] & [f6 H6] & [f7 H7] & [f8 H8] &
            [f9 H9]) & [f11 H11] & [f12 H12] & [f13 H13]).
    unfold blocks. rewrite H1, H4, H5, H6, H7, H8, H9, H11, H12, H13.
    by eexists [_; _; _; _; _; _; _; _; _; _; _; _; _].
Qed.

(** ** Complete and failed scrapes *)

Lemma collect_complete self :
  ok self = true → required_fields self →
  outcome (collect self) = inr () ∧
  length (yielded (collect self)) = 13%nat.
Proof.
  intros Hok (fs & Hfs)%blocks_ok.
  assert (length (blocks self) = 13%nat) as Hlen by done.
  rewrite (collect_emit _ Hok), Hfs, emit_inr. simpl.
  rewrite Hfs, length_fmap in Hlen. done.
Qed.

Lemma collect_inr_required self :
  ok self = true → outcome (collect self) = inr () → required_fields self.
Proof.
  intros Hok Ho. apply blocks_ok.
  destruct (collect_cases _ Hok) as [(fs & Hb & _)|(fs & e & rest & _ & Hc)].
  - eauto.
  - rewrite Hc in Ho. discriminate.
Qed.

Lemma xavier_required : required_fields xavier.
Proof. apply (bool_decide_unpack _). vm_compute. exact I. Qed.

(** C1, as the spec states it, fails: a live session with every required
    field there is rendered into thirteen families, not twelve. *)
Lemma twelve_families_refuted :
  ok xavier = true ∧ required_fields xavier ∧
  outcome (collect xavier) = inr () ∧
  length (yielded (collect xavier)) ≠ 12%nat.
Proof.
  split_and!.
  - reflexivity.
  - exact xavier_required.
  - vm_compute. reflexivity.
  - vm_compute. discriminate.
Qed.

(** C1 (amended): for every live snapshot with all required fields present,
    [collect] runs to its end and yields exactly 13 families (board info,
    power mode, uptime, CPU, GPU, RAM, disk, fan, swap, temperatures, power,
    voltage, current); the name and label key of each are the constants of
    [family_headers], whatever the field values. *)
Theorem complete_scrape_thirteen_families self :
  ok self = true → required_fields self →
  outcome (collect self) = inr () ∧
  length (yielded (collect self)) = 13%nat ∧
  header <$> yielded (collect self) = family_headers.
Proof.
  intros Hok Hreq.
  destruct (collect_complete _ Hok Hreq) as [Ho Hlen].
  split_and!; [done..|].
  by rewrite yielded_headers, Hlen.
Qed.

Lemma complete_scrape_thirteen_families_witness :
  outcome (collect xavier) = inr () ∧
  length (yielded (collect xavier)) = 13%nat ∧
  header <$> yielded (collect xavier) = family_headers.
Proof.
  apply (complete_scrape_thirteen_families xavier).
  - reflexivity.
  - apply (bool_decide_unpack _). vm_compute. exact I.
Defined.

(** C2: when [ok()] is false at the start of the pass, [collect] yields no
    family at all and ends without an error, whatever the session holds. *)
Theorem dead_session_yields_nothing self :
  ok self = false →
  yielded (collect self) = [] ∧ outcome (collect self) = inr ().
Proof. intros Hok. by rewrite (collect_not_ok _ Hok). Qed.

Lemma dead_session_yields_nothing_witness :
  yielded (collect xavier_down) = [] ∧ outcome (collect xavier_down) = inr ().
Proof. apply (dead_session_yields_nothing xavier_down). reflexivity. Defined.

(** C7: on a live session, when any of the eleven board identity fields is
    absent, [collect] raises a [KeyError] before anything is yielded: no
    board-info record, complete or partial, reaches the consumer. *)
Theorem missing_identity_field_raises self :
  ok self = true → ¬ board_identity self →
  ∃ k, collect self = MkGen [] (inl (KeyError k)).
Proof.
  intros Hok Hid. rewrite (collect_emit _ Hok). unfold blocks.
  destruct (jetson_info_board self) as [e|f] eqn:Hb.
  - apply jetson_info_board_inl in Hb as [k ->]. by exists k.
  - destruct Hid. apply jetson_info_board_identity. eauto.
Qed.

Lemma missing_identity_field_raises_witness :
  ∃ k, collect xavier_no_serial = MkGen [] (inl (KeyError k)).
Proof.
  apply (missing_identity_field_raises xavier_no_serial).
  - reflexivity.
  - apply (bool_decide_eq_false_1 _). vm_compute. reflexivity.
Defined.

(** ** Finding a family in the output *)

Lemma family_names_NoDup : NoDup family_headers.*1.
Proof. apply (bool_decide_unpack _). vm_compute. exact I. Qed.

(** A yielded family sits at the position its name has in the fixed list,
    and is the value of that step. *)
Lemma yielded_named self f i ls :
  f ∈ yielded (collect self) →
  family_headers !! i = Some (name f, ls) →
  yielded (collect self) !! i = Some f ∧ blocks self !! i = Some (inr f).
Proof.
  intros [j Hj]%list_elem_of_lookup Hi.
  pose proof (yielded_header _ _ _ Hj) as Hh.
  assert (i = j) as ->.
  { eapply NoDup_lookup; [apply family_names_NoDup|..].
    - by rewrite list_lookup_fmap, Hi.
    - by rewrite list_lookup_fmap, Hh. }
  split; [done|]. by apply yielded_lookup.
Qed.

(** When the first [n] steps have values, they are what the consumer gets
    first. *)
Lemma yielded_prefix self n :
  ok self = true →
  (∀ i, (i < n)%nat → ∃ f, blocks self !! i = Some (inr f)) →
  ∀ i f, (i < n)%nat → blocks self !! i = Some (inr f) →
         yielded (collect self) !! i = Some f.
Proof.
  intros Hok Hpre i f Hi Hb.
  destruct (collect_cases _ Hok) as [(fs & Hfs & ->)|(fs & e & rest & Hfs & ->)];
    rewrite Hfs in Hb, Hpre; simpl.
  - rewrite list_lookup_fmap in Hb. destruct (fs !! i); by simplify_eq/=.
  - assert (length (inr <$> fs : list (exn + MetricFamily)) = length fs) as Hl
      by apply length_fmap.
    destruct (decide (i < length fs)%nat) as [Hlt|Hge].
    + rewrite lookup_app_l in Hb by lia.
      rewrite list_lookup_fmap in Hb. destruct (fs !! i); by simplify_eq/=.
    + destruct (Hpre (length fs)) as [f' Hf']; [lia|].
      rewrite list_lookup_middle in Hf' by done. discriminate.
Qed.

Lemma first_ten_ok self :
  board_identity self → eight_cores self → usage_fields self →
  ∀ i, (i < 10)%nat → ∃ f, blocks self !! i = Some (inr f).
Proof.
  intros [f1 H1]%jetson_info_board_identity [f4 H4]%jetson_usage_cpu_ok
    ([f5 H5] & [f6 H6] & [f7 H7] & [f8 H8] & [f9 H9])%usage_families_ok i Hi.
  unfold blocks. rewrite H1, H4, H5, H6, H7, H8, H9.
  do 10 (destruct i as [|i]; [simpl; eauto|]). lia.
Qed.

Lemma first_three_ok self :
  board_identity self →
  ∀ i, (i < 3)%nat → ∃ f, blocks self !! i = Some (inr f).
Proof.
  intros [f1 H1]%jetson_info_board_identity i Hi.
  unfold blocks. rewrite H1.
  do 3 (destruct i as [|i]; [simpl; eauto|]). lia.
Qed.

Lemma gauge_samples_labels (ls : list string) (vs : list number) :
  length ls = length vs →
  label_values <$> gauge_samples ls vs = (λ l, [l]) <$> ls.
Proof.
  revert vs. induction ls as [|l ls IH]; intros [|v vs]; try done.
  intros [= Hlen]. unfold gauge_samples. simpl. f_equal. by apply IH.
Qed.

Lemma gauge_samples_length (ls : list string) (vs : list number) :
  length ls = length vs → length (gauge_samples ls vs) = length ls.
Proof.
  intros H. unfold gauge_samples. rewrite length_zip_with. lia.
Qed.

(** The label values of a family never depend on the snapshot. *)
Lemma block_sample_labels self i f :
  blocks self !! i = Some (inr f) →
  ∃ ls, family_sample_labels !! i = Some ls ∧
        label_values <$> samples f = (λ l, [l]) <$> ls.
Proof.
  assert (∀ g items, samples g = [] →
            fill g items = inr f →
            label_values <$> samples f = (λ l, [l]) <$> items.*1) as Hfill.
  { intros g items Hg (vs & Hvs & ->)%fill_inr.
    unfold add_samples. cbn [samples]. rewrite Hg, app_nil_l.
    apply gauge_samples_labels. rewrite length_fmap.
    by eapply Forall2_length. }
  unfold blocks.
  do 13 (try (destruct i as [|i];
              [simpl; intros [= Hf]; eexists; split; [done|]|]));
    [..|done].
  - by apply jetson_info_board_inr in Hf as (vs & _ & ->).
  - by subst f.
  - by subst f.
  - rewrite jetson_usage_cpu_fill in Hf. by apply Hfill in Hf.
  - rewrite jetson_usage_gpu_fill in Hf. by apply Hfill in Hf.
  - rewrite jetson_usage_ram_fill in Hf. by apply Hfill in Hf.
  - rewrite jetson_usage_disk_fill in Hf. by apply Hfill in Hf.
  - rewrite jetson_usage_fan_fill in Hf. by apply Hfill in Hf.
  - rewrite jetson_usage_swap_fill in Hf. by apply Hfill in Hf.
  - by subst f.
  - rewrite jetson_usage_power_fill in Hf. by apply Hfill in Hf.
  - rewrite jetson_usage_voltage_levels_fill in Hf. by apply Hfill in Hf.
  - rewrite jetson_usage_current_values_fill in Hf. by apply Hfill in Hf.
Qed.

Lemma temperature_or_0_default self k :
  temperature_or_0 self k = sensor_reading self k.
Proof.
  unfold temperature_or_0, sensor_reading. case_decide as H; [done|].
  destruct (temperature self !! k); [|done]. destruct H. eauto.
Qed.

Lemma jetson_temperatures_inr self :
  jetson_temperatures self =
  inr {| typ := gauge; name := "jetson_temperatures";
         documentation := "Sensor temperatures"; labels := ["temperature"];
         samples := gauge_samples sensor_labels
                      (sensor_reading self <$> sensor_names) |}.
Proof.
  unfold jetson_temperatures. rewrite !temperature_or_0_default. reflexivity.
Qed.

(** C4: the temperature family always has exactly seven records, in the
    order ao, gpu, tdiode, aux, cpu, thermal, tboard; each carries the
    sensor's reading when the sensor is in the mapping and 0 when it is
    not, and building it never raises.  Whenever a scrape yields the family,
    these are its records, and once the nine families before it are built it
    is yielded, in tenth place.  With only CPU = 45.0 and GPU = 38.2 in the
    mapping the records are ao=0, gpu=38.2, tdiode=0, aux=0, cpu=45.0,
    thermal=0, tboard=0. *)
Theorem temperatures_seven_records self :
  let records :=
    gauge_samples sensor_labels (sensor_reading self <$> sensor_names) in
  (∃ g, jetson_temperatures self = inr g ∧ samples g = records) ∧
  length records = 7%nat ∧
  label_values <$> records = (λ l, [l]) <$> sensor_labels ∧
  (∀ k, temperature self !! k = None → sensor_reading self k = Int 0) ∧
  (∀ k v, temperature self !! k = Some v → sensor_reading self k = v) ∧
  (∀ f, f ∈ yielded (collect self) → name f = "jetson_temperatures" →
        samples f = records) ∧
  (ok self = true → board_identity self → eight_cores self →
   usage_fields self →
   ∃ g, yielded (collect self) !! 9%nat = Some g ∧
        name g = "jetson_temperatures" ∧ samples g = records) ∧
  (temperature self = {[ "CPU" := Float 45.0; "GPU" := Float 38.2 ]} →
   records = gauge_samples sensor_labels
               [Int 0; Float 38.2; Int 0; Int 0; Float 45.0; Int 0; Int 0]).
Proof.
  intros records. subst records. split_and!.
  - eexists. split; [apply jetson_temperatures_inr|done].
  - done.
  - done.
  - unfold sensor_reading. by intros k ->.
  - unfold sensor_reading. by intros k v ->.
  - intros f Hf Hn.
    destruct (yielded_named self f 9 ["temperature"] Hf) as [_ Hb].
    { by rewrite Hn. }
    simpl in Hb. rewrite jetson_temperatures_inr in Hb. by simplify_eq.
  - intros Hok Hid Hcpu Huse. eexists. split.
    { eapply (yielded_prefix self 10 Hok); [by apply first_ten_ok|lia|].
      simpl. by rewrite jetson_temperatures_inr. }
    split; reflexivity.
  - unfold sensor_reading. intros ->. reflexivity.
Qed.

Lemma temperatures_seven_records_witness :
  gauge_samples sensor_labels (sensor_reading xavier <$> sensor_names) =
  gauge_samples sensor_labels
    [Int 0; Float 38.2; Int 0; Int 0; Float 45.0; Int 0; Int 0].
Proof.
  apply (temperatures_seven_records xavier). reflexivity.
Defined.

Lemma jetson_uptime_inr self :
  jetson_uptime self =
  inr {| typ := gauge; name := "jetson_uptime";
         documentation := "System uptime"; labels := ["uptime"];
         samples := gauge_samples ["days"; "hours"; "minutes"]
                      [Int (days (uptime self));
                       Int (seconds (uptime self) `div` 3600);
                       Int ((seconds (uptime self) `div` 60) `mod` 60)] |}.
Proof. reflexivity. Qed.

(** C6: the uptime family has exactly three records: days, the duration's
    own day count; hours, [seconds // 3600]; minutes, [(seconds // 60) % 60].
    On a live session with the board identity complete, [collect] yields it,
    in third place, with exactly these records.  With
    [0 <= seconds < 86400] the hours stay below 24 and the minutes below 60.
    For 2 days and 10000 seconds the records are 2, 2 and 46. *)
Theorem uptime_days_hours_minutes self :
  let d := days (uptime self) in
  let s := seconds (uptime self) in
  let records :=
    gauge_samples ["days"; "hours"; "minutes"]
      [Int d; Int (s `div` 3600); Int ((s `div` 60) `mod` 60)] in
  (∃ g, jetson_uptime self = inr g ∧ samples g = records) ∧
  length records = 3%nat ∧
  (∀ f, f ∈ yielded (collect self) → name f = "jetson_uptime" →
        samples f = records) ∧
  (ok self = true → board_identity self →
   ∃ g, yielded (collect self) !! 2%nat = Some g ∧
        name g = "jetson_uptime" ∧ samples g = records) ∧
  (0 ≤ s < 86400 →
   0 ≤ s `div` 3600 < 24 ∧ 0 ≤ (s `div` 60) `mod` 60 < 60) ∧
  (uptime self = {| days := 2; seconds := 10000 |} →
   records = gauge_samples ["days"; "hours"; "minutes"] [Int 2; Int 2; Int 46]).
Proof.
  intros d s records. subst d s records. split_and!.
  - eexists. split; [apply jetson_uptime_inr|done].
  - done.
  - intros f Hf Hn.
    destruct (yielded_named self f 2 ["uptime"] Hf) as [_ Hb].
    { by rewrite Hn. }
    simpl in Hb. rewrite jetson_uptime_inr in Hb. by simplify_eq.
  - intros Hok Hid. eexists. split.
    { eapply (yielded_prefix self 3 Hok); [by apply first_three_ok|lia|].
      simpl. by rewrite jetson_uptime_inr. }
    split; reflexivity.
  - intros [Hlo Hhi]. split.
    + split; [by apply Z.div_pos|]. apply Z.div_lt_upper_bound; lia.
    + apply Z.mod_pos_bound. lia.
  - intros ->. reflexivity.
Qed.

Lemma uptime_days_hours_minutes_witness :
  (∃ g, yielded (collect xavier) !! 2%nat = Some g ∧
        name g = "jetson_uptime" ∧
        samples g = gauge_samples ["days"; "hours"; "minutes"]
                      [Int 2; Int 2; Int 46]) ∧
  (0 ≤ 10000 `div` 3600 < 24 ∧ 0 ≤ (10000 `div` 60) `mod` 60 < 60) ∧
  gauge_samples ["days"; "hours"; "minutes"]
    [Int (days (uptime xavier)); Int (seconds (uptime xavier) `div` 3600);
     Int ((seconds (uptime xavier) `div` 60) `mod` 60)] =
  gauge_samples ["days"; "hours"; "minutes"] [Int 2; Int 2; Int 46].
Proof.
  pose proof (uptime_days_hours_minutes xavier) as (_ & _ & _ & Hy & Hb & He).
  split; [|split].
  - apply Hy.
    + reflexivity.
    + apply (bool_decide_unpack _). vm_compute. exact I.
  - apply Hb. simpl. lia.
  - apply He. reflexivity.
Defined.

(** ** A missing rail *)

Lemma rail_at_missing self r q :
  (p ← power self !! "rail"; p !! r) = None → rail_at self r q = None.
Proof.
  unfold rail_at. destruct (power self !! "rail") as [p|]; simpl; [|done].
  by intros ->.
Qed.

Lemma rail_family_raises self g q :
  (p ← power self !! "rail"; p !! "VDDRQ") = None →
  ∃ e, fill g (rail_items self q) = inl e.
Proof.
  intros H. destruct (rail_missing self "VDDRQ" q) as [e He].
  { by apply rail_at_missing. }
  apply (fill_raises _ _ "vddrq" e). unfold rail_items. rewrite He.
  apply (list_elem_of_lookup_2 _ 5). reflexivity.
Qed.

Ltac not_in_list H :=
  repeat (apply elem_of_cons in H as [H|H]; [discriminate|]);
  by apply elem_of_nil in H.

(** C3: on a live session whose rail mapping has no "VDDRQ", none of the
    power, voltage and current families can be built; [collect] ends with an
    error, after ten families at most; no family named power, voltage or
    current is yielded, and no record labelled vddrq is yielded at all: the
    missing rail is never turned into a value. *)
Theorem missing_vddrq_raises self :
  ok self = true →
  (p ← power self !! "rail"; p !! "VDDRQ") = None →
  (∃ e, jetson_usage_power self = inl e) ∧
  (∃ e, jetson_usage_voltage_levels self = inl e) ∧
  (∃ e, jetson_usage_current_values self = inl e) ∧
  (∃ e, outcome (collect self) = inl e) ∧
  (length (yielded (collect self)) ≤ 10)%nat ∧
  (∀ f, f ∈ yielded (collect self) →
        name f ∉ ["jetson_usage_power"; "jetson_usage_voltage_levels";
                  "jetson_usage_current_values"]) ∧
  (∀ f s, f ∈ yielded (collect self) → s ∈ samples f →
          label_values s ≠ ["vddrq"]).
Proof.
  intros Hok Hno.
  destruct (rail_family_raises self
    (GaugeMetricFamily "jetson_usage_power" "Power usage" ["power"])
    "power" Hno) as [e He].
  rewrite <-jetson_usage_power_fill in He.
  assert (length (yielded (collect self)) ≤ 10)%nat as Hlen.
  { destruct (decide (length (yielded (collect self)) ≤ 10)%nat); [done|].
    destruct (lookup_lt_is_Some_2 (yielded (collect self)) 10) as [f Hf];
      [lia|].
    apply yielded_lookup in Hf. simpl in Hf. congruence. }
  split_and!.
  - eauto.
  - rewrite jetson_usage_voltage_levels_fill. by apply rail_family_raises.
  - rewrite jetson_usage_current_values_fill. by apply rail_family_raises.
  - destruct (outcome (collect self)) as [e'|[]] eqn:Ho; [eauto|].
    apply collect_inr_required in Ho; [|done].
    destruct Ho as (_ & _ & _ & Hrails).
    apply rail_families_ok in Hrails as ([f Hf] & _). congruence.
  - done.
  - intros f [j Hj]%list_elem_of_lookup Hin.
    pose proof (lookup_lt_Some _ _ _ Hj) as Hlt.
    apply yielded_header in Hj. unfold header in Hj.
    do 10 (try (destruct j as [|j];
                [injection Hj as Hn _; rewrite <-Hn in Hin; not_in_list Hin|])).
    lia.
  - intros f s [j Hj]%list_elem_of_lookup Hs Hl.
    pose proof (lookup_lt_Some _ _ _ Hj) as Hlt.
    apply yielded_lookup, block_sample_labels in Hj as (ls & Hls & Hlab).
    assert (["vddrq"] ∈ (λ l : string, [l]) <$> ls) as Hin.
    { rewrite <-Hlab, <-Hl. by apply list_elem_of_fmap_2. }
    apply list_elem_of_fmap_1 in Hin as (l & [= <-] & Hin).
    do 10 (try (destruct j as [|j];
                [injection Hls as <-; not_in_list Hin|])).
    lia.
Qed.

Lemma missing_vddrq_raises_witness :
  (∃ e, outcome (collect xavier_no_vddrq) = inl e) ∧
  (length (yielded (collect xavier_no_vddrq)) ≤ 10)%nat.
Proof.
  pose proof (missing_vddrq_raises xavier_no_vddrq eq_refl eq_refl)
    as (_ & _ & _ & He & Hlen & _).
  exact (conj He Hlen).
Defined.

(** C10: the families are handed over one by one.  When step [n] is the
    first to raise, [collect] ends with that step's error and the families of
    all [n] steps before it have been yielded, in order.  With the "VDDRQ"
    rail missing and the fields of the first ten families there, exactly the
    ten families from board info to temperatures are yielded before the
    error; it is [KeyError "VDDRQ"] when the other five rails report their
    power. *)
Theorem families_before_failure_delivered self :
  ok self = true →
  (∀ n e, blocks self !! n = Some (inl e) →
     (∀ i, (i < n)%nat → ∃ f, blocks self !! i = Some (inr f)) →
     outcome (collect self) = inl e ∧
     length (yielded (collect self)) = n ∧
     ∀ i f, (i < n)%nat → blocks self !! i = Some (inr f) →
            yielded (collect self) !! i = Some f) ∧
  (board_identity self → eight_cores self → usage_fields self →
   (p ← power self !! "rail"; p !! "VDDRQ") = None →
   (∃ e, outcome (collect self) = inl e) ∧
   length (yielded (collect self)) = 10%nat ∧
   header <$> yielded (collect self) = take 10 family_headers ∧
   (Forall (λ r, is_Some (rail_at self r "power"))
      ["CPU"; "CV"; "GPU"; "SOC"; "SYS5V"] →
    outcome (collect self) = inl (KeyError "VDDRQ"))).
Proof.
  intros Hok. split.
  - intros n e Hn Hpre.
    destruct (collect_raises self n e Hok Hn Hpre) as [Ho Hlen].
    split_and!; [done..|]. by apply yielded_prefix.
  - intros Hid Hcpu Huse Hno.
    pose proof (first_ten_ok self Hid Hcpu Huse) as Hten.
    destruct (rail_family_raises self
      (GaugeMetricFamily "jetson_usage_power" "Power usage" ["power"])
      "power" Hno) as [e He].
    rewrite <-jetson_usage_power_fill in He.
    assert (blocks self !! 10%nat = Some (inl e)) as H10.
    { simpl. by rewrite He. }
    destruct (collect_raises self 10 e Hok H10 Hten) as [Ho Hlen].
    split_and!; [eauto|done|by rewrite yielded_headers, Hlen|].
    intros Hfive. rewrite Ho. f_equal.
    rewrite jetson_usage_power_fill in He. unfold rail_items in He.
    assert (is_Some (rail_at self "CPU" "power")) as [vc Hc]
      by (by apply Forall_cons in Hfive as [? _]).
    repeat (apply Forall_cons in Hfive as [[? Hr] Hfive];
            apply rail_expr in Hr; rewrite Hr in He; clear Hr).
    simpl in He. unfold rail, rail_at in He, Hc.
    destruct (power self !! "rail") as [p|] eqn:Hp; [|discriminate].
    rewrite (getitem_Some _ _ _ Hp) in He. simpl in *.
    rewrite (getitem_None _ _ Hno) in He. simpl in He. congruence.
Qed.

Lemma families_before_failure_delivered_witness :
  (∃ e, outcome (collect xavier_no_vddrq) = inl e) ∧
  length (yielded (collect xavier_no_vddrq)) = 10%nat ∧
  header <$> yielded (collect xavier_no_vddrq) = take 10 family_headers ∧
  outcome (collect xavier_no_vddrq) = inl (KeyError "VDDRQ").
Proof.
  pose proof (families_before_failure_delivered xavier_no_vddrq eq_refl)
    as [_ H].
  destruct H as (He & Hlen & Hh & Hk).
  - apply (bool_decide_unpack _). vm_compute. exact I.
  - apply (bool_decide_unpack _). vm_compute. exact I.
  - apply (bool_decide_unpack _). vm_compute. exact I.
  - reflexivity.
  - split_and!; [done..|]. apply Hk.
    apply (bool_decide_unpack _). vm_compute. exact I.
Defined.

(** ** The core list *)

Lemma cpu_freq_cur_wf self l i c v :
  cpu self !! "cpu" = Some l → l !! i = Some c → cur_freq c = Some v →
  cpu_freq_cur self i = inr v.
Proof.
  intros Hl Hi Hc. apply cpu_expr. unfold core_at. rewrite Hl. simpl.
  rewrite Hi. exact Hc.
Qed.

Lemma cpu_freq_cur_out self l i :
  cpu self !! "cpu" = Some l → l !! i = None →
  cpu_freq_cur self i = inl IndexError.
Proof.
  intros Hl Hi. unfold cpu_freq_cur. rewrite (getitem_Some _ _ _ Hl). simpl.
  unfold getindex. by rewrite Hi.
Qed.

Lemma jetson_usage_cpu_inr self l vs :
  cpu self !! "cpu" = Some l → (8 ≤ length l)%nat →
  cur_freq <$> take 8 l = Some <$> vs →
  jetson_usage_cpu self =
  inr {| typ := gauge; name := "jetson_usage_cpu";
         documentation := "CPU % schedutil"; labels := ["cpu"];
         samples := gauge_samples core_labels vs |}.
Proof.
  intros Hl Hlen Hvs.
  do 8 (destruct l as [|? l]; [simpl in Hlen; lia|]).
  do 8 (destruct vs as [|? vs]; [discriminate|]).
  destruct vs; [|discriminate].
  simpl in Hvs. injection Hvs as H0 H1 H2 H3 H4 H5 H6 H7.
  unfold jetson_usage_cpu.
  rewrite (cpu_freq_cur_wf _ _ 0 _ _ Hl eq_refl H0),
    (cpu_freq_cur_wf _ _ 1 _ _ Hl eq_refl H1),
    (cpu_freq_cur_wf _ _ 2 _ _ Hl eq_refl H2),
    (cpu_freq_cur_wf _ _ 3 _ _ Hl eq_refl H3),
    (cpu_freq_cur_wf _ _ 4 _ _ Hl eq_refl H4),
    (cpu_freq_cur_wf _ _ 5 _ _ Hl eq_refl H5),
    (cpu_freq_cur_wf _ _ 6 _ _ Hl eq_refl H6),
    (cpu_freq_cur_wf _ _ 7 _ _ Hl eq_refl H7).
  reflexivity.
Qed.

Lemma short_core_list_raises self l :
  cpu self !! "cpu" = Some l → (length l < 8)%nat →
  ∃ e, jetson_usage_cpu self = inl e.
Proof.
  intros Hl Hlen. apply not_inr_inl. intros f Hf.
  assert (eight_cores self) as H8 by (apply jetson_usage_cpu_ok; eauto).
  unfold eight_cores in H8. simpl in H8.
  do 7 (apply Forall_cons in H8 as [_ H8]).
  apply Forall_cons in H8 as [[v Hv] _].
  unfold core_at in Hv. rewrite Hl in Hv. simpl in Hv.
  rewrite (lookup_ge_None_2 l 7) in Hv by lia. discriminate.
Qed.

Lemma short_core_list_IndexError self l :
  cpu self !! "cpu" = Some l → (length l < 8)%nat →
  Forall (λ c, is_Some (cur_freq c)) l →
  jetson_usage_cpu self = inl IndexError.
Proof.
  intros Hl Hlen Hwf. unfold jetson_usage_cpu.
  do 8 (try (destruct l as [|? l];
             [|apply Forall_cons in Hwf as [[? ?] Hwf]]));
    [..|simpl in Hlen; lia];
    repeat (first
      [ erewrite (cpu_freq_cur_wf _ _ _ _ _ Hl) by (reflexivity || eassumption)
      | rewrite (cpu_freq_cur_out _ _ _ Hl) by reflexivity ]; simpl);
    reflexivity.
Qed.

(** C5: with at least eight entries in the core list, each of the first
    eight reporting a current frequency, the CPU family has exactly eight
    records, cpu_1 to cpu_8, carrying the frequencies of cores 0 to 7 in
    that order, and on a live session with the board identity complete
    [collect] yields it, in fourth place.  With fewer than eight entries the
    family cannot be built: [collect] ends with an error (an [IndexError]
    when the entries that are there are well formed and the board identity
    is complete), yields no CPU family and nothing after it. *)
Theorem cpu_family_eight_or_raise self l :
  cpu self !! "cpu" = Some l →
  (∀ vs, (8 ≤ length l)%nat → cur_freq <$> take 8 l = Some <$> vs →
     jetson_usage_cpu self =
       inr {| typ := gauge; name := "jetson_usage_cpu";
              documentation := "CPU % schedutil"; labels := ["cpu"];
              samples := gauge_samples core_labels vs |} ∧
     length (gauge_samples core_labels vs) = 8%nat ∧
     (∀ f, f ∈ yielded (collect self) → name f = "jetson_usage_cpu" →
           samples f = gauge_samples core_labels vs) ∧
     (ok self = true → board_identity self →
      ∃ g, yielded (collect self) !! 3%nat = Some g ∧
           name g = "jetson_usage_cpu" ∧
           samples g = gauge_samples core_labels vs ∧
           length (samples g) = 8%nat)) ∧
  ((length l < 8)%nat →
     (∃ e, jetson_usage_cpu self = inl e) ∧
     (Forall (λ c, is_Some (cur_freq c)) l →
      jetson_usage_cpu self = inl IndexError) ∧
     (ok self = true →
      (∃ e, outcome (collect self) = inl e) ∧
      (length (yielded (collect self)) ≤ 3)%nat ∧
      (∀ f, f ∈ yielded (collect self) → name f ≠ "jetson_usage_cpu")) ∧
     (ok self = true → board_identity self →
      Forall (λ c, is_Some (cur_freq c)) l →
      outcome (collect self) = inl IndexError ∧
      length (yielded (collect self)) = 3%nat)).
Proof.
  intros Hl. split.
  - intros vs Hlen Hvs.
    pose proof (jetson_usage_cpu_inr self l vs Hl Hlen Hvs) as Hcpu.
    assert (length (gauge_samples core_labels vs) = 8%nat) as Hlen8.
    { apply gauge_samples_length.
      apply (f_equal length) in Hvs.
      rewrite !length_fmap, length_take in Hvs. simpl. lia. }
    split_and!; [done..| |].
    + intros f Hf Hn.
      destruct (yielded_named self f 3 ["cpu"] Hf) as [_ Hb].
      { by rewrite Hn. }
      simpl in Hb. rewrite Hcpu in Hb. by simplify_eq.
    + intros Hok Hid. eexists. split.
      { eapply (yielded_prefix self 4 Hok); [|lia|].
        - intros i Hi. destruct (decide (i = 3%nat)) as [->|Hne].
          + simpl. rewrite Hcpu. eauto.
          + destruct (first_three_ok self Hid i) as [f Hf]; [lia|].
            exists f. exact Hf.
        - change (blocks self !! 3%nat) with (Some (jetson_usage_cpu self)).
          by rewrite Hcpu. }
      split_and!; [reflexivity..|exact Hlen8].
  - intros Hlen.
    destruct (short_core_list_raises self l Hl Hlen) as [e He].
    assert (ok self = true → length (yielded (collect self)) ≤ 3)%nat as Hle.
    { intros Hok.
      destruct (decide (length (yielded (collect self)) ≤ 3)%nat); [done|].
      destruct (lookup_lt_is_Some_2 (yielded (collect self)) 3) as [f Hf];
        [lia|].
      apply yielded_lookup in Hf. simpl in Hf. congruence. }
    split_and!.
    + eauto.
    + by apply short_core_list_IndexError.
    + intros Hok. split_and!.
      * destruct (outcome (collect self)) as [e'|[]] eqn:Ho; [eauto|].
        apply collect_inr_required in Ho as (_ & H8 & _); [|done].
        apply jetson_usage_cpu_ok in H8 as [f Hf]. congruence.
      * by apply Hle.
      * intros f Hf Hn.
        destruct (yielded_named self f 3 ["cpu"] Hf) as [_ Hb].
        { by rewrite Hn. }
        simpl in Hb. congruence.
    + intros Hok Hid Hwf.
      apply (collect_raises self 3 IndexError Hok).
      * simpl. by rewrite (short_core_list_IndexError self l).
      * by apply first_three_ok.
Qed.

Lemma cpu_family_eight_or_raise_witness :
  (∃ g, yielded (collect xavier) !! 3%nat = Some g ∧
        name g = "jetson_usage_cpu" ∧
        samples g = gauge_samples core_labels
                      [Int 100; Int 200; Int 300; Int 400;
                       Int 500; Int 600; Int 700; Int 800] ∧
        length (samples g) = 8%nat) ∧
  (outcome (collect (set_cores xavier six_core_list)) = inl IndexError ∧
   length (yielded (collect (set_cores xavier six_core_list))) = 3%nat).
Proof.
  split.
  - refine (proj2 (proj2 (proj2 (proj1 (cpu_family_eight_or_raise xavier
      (core <$> [Int 100; Int 200; Int 300; Int 400;
                 Int 500; Int 600; Int 700; Int 800]) eq_refl) _ _ _))) _ _).
    + simpl. lia.
    + reflexivity.
    + reflexivity.
    + apply (bool_decide_unpack _). vm_compute. exact I.
  - refine (proj2 (proj2 (proj2 (proj2 (cpu_family_eight_or_raise
      (set_cores xavier six_core_list) six_core_list eq_refl) _))) _ _ _).
    + simpl. lia.
    + reflexivity.
    + apply (bool_decide_unpack _). vm_compute. exact I.
    + apply (bool_decide_unpack _). vm_compute. exact I.
Defined.

(** Cutting the core list after its eighth entry changes nothing. *)
Lemma cpu_freq_cur_take self l i :
  cpu self !! "cpu" = Some l → (i < 8)%nat →
  cpu_freq_cur (set_cores self (take 8 l)) i = cpu_freq_cur self i.
Proof.
  intros Hl Hi. unfold cpu_freq_cur. simpl.
  rewrite (getitem_Some _ _ _ Hl).
  rewrite (getitem_Some _ _ (take 8 l)) by apply lookup_insert_eq.
  simpl. unfold getindex. by rewrite lookup_take_lt.
Qed.

Lemma collect_take_cores self l :
  cpu self !! "cpu" = Some l →
  collect (set_cores self (take 8 l)) = collect self.
Proof.
  intros Hl.
  assert (jetson_usage_cpu (set_cores self (take 8 l)) = jetson_usage_cpu self)
    as Hcpu.
  { unfold jetson_usage_cpu.
    rewrite !(cpu_freq_cur_take self l _ Hl) by lia. reflexivity. }
  unfold collect. rewrite Hcpu. reflexivity.
Qed.

(** C9: with more than eight entries in the core list, a live session with
    every required field is rendered to the end without error; the CPU
    family, fourth in the output, still has exactly eight records, for cores
    0 to 7; the entries past the eighth have no effect on anything that is
    rendered: the scrape is the same as with the list cut to eight
    entries. *)
Theorem surplus_cores_ignored self l :
  ok self = true → required_fields self →
  cpu self !! "cpu" = Some l → (8 < length l)%nat →
  outcome (collect self) = inr () ∧
  (∃ g vs, yielded (collect self) !! 3%nat = Some g ∧
           name g = "jetson_usage_cpu" ∧
           cur_freq <$> take 8 l = Some <$> vs ∧
           samples g = gauge_samples core_labels vs ∧
           length (samples g) = 8%nat) ∧
  collect (set_cores self (take 8 l)) = collect self.
Proof.
  intros Hok Hreq Hl Hlen.
  destruct (collect_complete _ Hok Hreq) as [Ho Hn].
  split_and!; [done| |by apply collect_take_cores].
  destruct Hreq as (_ & H8 & _).
  assert (∃ vs, cur_freq <$> take 8 l = Some <$> vs) as [vs Hvs].
  { unfold eight_cores, core_at in H8. rewrite Hl in H8. simpl in H8.
    do 8 (destruct l as [|? l]; [simpl in Hlen; lia|]). simpl in *.
    repeat (apply Forall_cons in H8 as [[? ?] H8]).
    eexists [_; _; _; _; _; _; _; _]. simpl. by repeat f_equal. }
  pose proof (jetson_usage_cpu_inr self l vs Hl ltac:(lia) Hvs) as Hcpu.
  destruct (lookup_lt_is_Some_2 (yielded (collect self)) 3) as [g Hg]; [lia|].
  pose proof (yielded_lookup _ _ _ Hg) as Hb.
  change (blocks self !! 3%nat) with (Some (jetson_usage_cpu self)) in Hb.
  rewrite Hcpu in Hb.
  exists g, vs. assert (samples g = gauge_samples core_labels vs) as Hs
    by (by simplify_eq).
  split_and!; [done|by simplify_eq|done..|]. rewrite Hs.
  apply gauge_samples_length.
  apply (f_equal length) in Hvs.
  rewrite !length_fmap, length_take in Hvs. simpl. lia.
Qed.

Lemma surplus_cores_ignored_witness :
  outcome (collect (set_cores xavier twelve_core_list)) = inr () ∧
  collect (set_cores (set_cores xavier twelve_core_list)
             (take 8 twelve_core_list)) =
  collect (set_cores xavier twelve_core_list).
Proof.
  pose proof (surplus_cores_ignored (set_cores xavier twelve_core_list)
                twelve_core_list) as H.
  destruct H as (Ho & _ & Hc).
  - reflexivity.
  - apply (bool_decide_unpack _). vm_compute. exact I.
  - reflexivity.
  - simpl. lia.
  - exact (conj Ho Hc).
Defined.

(** ** What a scrape depends on *)

Lemma fill_same g items items' f :
  Forall2 (λ x y, x.1 = y.1 ∧ ∀ v, x.2 = inr v ↔ y.2 = inr v) items items' →
  fill g items = inr f ↔ fill g items' = inr f.
Proof.
  intros H. revert g.
  induction H as [|[l x] [l' y] items items' [Hl Hxy] _ IH]; intros g; [done|].
  simpl in *. subst l'. destruct x as [e|v]; simpl.
  - destruct y as [e'|v']; simpl; [done|].
    discriminate (proj2 (Hxy v') eq_refl).
  - rewrite (proj1 (Hxy v) eq_refl). simpl. apply IH.
Qed.

Lemma emit_same bs bs' :
  Forall2 (λ x y : exn + MetricFamily, ∀ f, x = inr f ↔ y = inr f) bs bs' →
  yielded (emit bs) = yielded (emit bs') ∧
  (outcome (emit bs) = inr () ↔ outcome (emit bs') = inr ()).
Proof.
  induction 1 as [|x y bs bs' Hxy _ [IHy IHo]]; [done|].
  destruct x as [e|f].
  - destruct y as [e'|f'].
    + rewrite !emit_cons_inl. simpl. done.
    + discriminate (proj2 (Hxy f') eq_refl).
  - rewrite (proj1 (Hxy f) eq_refl), !emit_cons_inr. simpl.
    by rewrite IHy, IHo.
Qed.

Ltac same_items :=
  unfold cpu_items, gpu_items, ram_items, disk_items, fan_items, swap_items,
    rail_items;
  repeat (constructor 2); [..|constructor];
  (split; [reflexivity|]); intros v; simpl;
  rewrite ?cpu_expr, ?gpu_expr, ?memory_expr, ?getitem_inr, ?fan_expr,
    ?rail_expr;
  match goal with H : _ = _ |- _ => by rewrite H end.

Lemma blocks_same a b :
  same_reads a b →
  Forall2 (λ x y : exn + MetricFamily, ∀ f, x = inr f ↔ y = inr f)
          (blocks a) (blocks b).
Proof.
  intros (_ & Hboard & Hnvp & Hup & Hcpu & Hgpu & Hram & Hdisk & Hfan & Hswap &
          Htemp & Hrail).
  unfold rail_names in Hrail. simpl in Hcpu.
  repeat (apply Forall_cons in Hrail as [[? [? [? [? [? [? _]%Forall_cons
    ]%Forall_cons]%Forall_cons]%Forall_cons]%Forall_cons]%Forall_cons Hrail]).
  unfold blocks. repeat (constructor 2); [..|constructor]; intros f.
  - rewrite !jetson_info_board_inr.
    assert (∀ vs,
      Forall2 (λ sk v, board_at a sk.1 sk.2 = Some v) identity_fields vs ↔
      Forall2 (λ sk v, board_at b sk.1 sk.2 = Some v) identity_fields vs)
      as Hvs; [|by setoid_rewrite Hvs].
    induction Hboard as [|sk l Hsk _ IH]; intros vs.
    + split; intros Hx; inversion Hx; constructor.
    + destruct vs as [|v vs].
      * split; intros Hx; inversion Hx.
      * rewrite !Forall2_cons, Hsk, IH. done.
  - unfold jetson_nvpmode. by rewrite Hnvp.
  - rewrite !jetson_uptime_inr. by rewrite Hup.
  - rewrite !jetson_usage_cpu_fill. apply fill_same.
    inv_Forall Hcpu. same_items.
  - rewrite !jetson_usage_gpu_fill. apply fill_same. same_items.
  - rewrite !jetson_usage_ram_fill. apply fill_same.
    inv_Forall Hram. same_items.
  - rewrite !jetson_usage_disk_fill. apply fill_same.
    inv_Forall Hdisk. same_items.
  - rewrite !jetson_usage_fan_fill. apply fill_same.
    inv_Forall Hfan. same_items.
  - rewrite !jetson_usage_swap_fill. apply fill_same.
    inv_Forall Hswap. same_items.
  - rewrite !jetson_temperatures_inr. unfold sensor_names in *.
    inv_Forall Htemp. simpl. unfold sensor_reading.
    repeat match goal with H : temperature a !! _ = _ |- _ =>
             rewrite H; clear H end.
    done.
  - rewrite !jetson_usage_power_fill. apply fill_same. same_items.
  - rewrite !jetson_usage_voltage_levels_fill. apply fill_same. same_items.
  - rewrite !jetson_usage_current_values_fill. apply fill_same. same_items.
Qed.

Lemma xavier_more_same_reads : same_reads xavier xavier_more.
Proof.
  unfold same_reads, identity_fields, sensor_names, rail_names. simpl seq.
  split_and!;
    repeat match goal with
           | |- Forall _ (_ :: _) => constructor 2
           | |- Forall _ [] => constructor
           | |- _ = _ => vm_compute; reflexivity
           end.
Qed.

(** C8: [collect] is a function of the session it reads.  Two scrapes of the
    same session give the same families, in the same order, with the same
    names, label values and values, and end the same way.  More than that,
    the scrape is a function of the fields it reads: two sessions that agree
    on those give the same families and both end without error or both with
    one, however they differ elsewhere. *)
Theorem collect_deterministic :
  (∀ self,
     let first := collect self in
     let second := collect self in
     yielded first = yielded second ∧ outcome first = outcome second) ∧
  (∀ a b, same_reads a b →
     yielded (collect a) = yielded (collect b) ∧
     (outcome (collect a) = inr () ↔ outcome (collect b) = inr ())).
Proof.
  split; [done|]. intros a b Hab.
  pose proof Hab as [Hok _].
  destruct (ok a) eqn:Ha.
  - rewrite (collect_emit a Ha), (collect_emit b) by done.
    by apply emit_same, blocks_same.
  - rewrite (collect_not_ok a Ha), (collect_not_ok b) by done. done.
Qed.

Lemma collect_deterministic_witness :
  yielded (collect xavier) = yielded (collect xavier_more) ∧
  (outcome (collect xavier) = inr () ↔ outcome (collect xavier_more) = inr ()).
Proof.
  apply (proj2 collect_deterministic xavier xavier_more).
  unfold same_reads, identity_fields, sensor_names, rail_names. simpl seq.
  split_and!;
    repeat match goal with
           | |- Forall _ (_ :: _) => constructor 2
           | |- Forall _ [] => constructor
           | |- _ = _ => vm_compute; reflexivity
           end.
Defined.

(** * Further properties of a scrape *)

(** X1: a scrape of a live session runs to its end exactly when every
    required field is there; any missing one ends it with an error. *)
Theorem live_scrape_succeeds_iff self :
  ok self = true →
  (outcome (collect self) = inr () ↔ required_fields self) ∧
  ((∃ e, outcome (collect self) = inl e) ↔ ¬ required_fields self).
Proof.
  intros Hok.
  assert (outcome (collect self) = inr () ↔ required_fields self) as Hiff.
  { split; [by apply collect_inr_required|].
    intros Hreq. by apply collect_complete. }
  split; [done|]. rewrite <-Hiff.
  destruct (outcome (collect self)) as [e|[]].
  - split; [by intros _ [=]|eauto].
  - split; [by intros [e [=]]|]. intros H. by destruct H.
Qed.

Lemma live_scrape_succeeds_iff_witness :
  (outcome (collect xavier) = inr () ↔ required_fields xavier) ∧
  ((∃ e, outcome (collect xavier_no_vddrq) = inl e) ↔
   ¬ required_fields xavier_no_vddrq).
Proof.
  split.
  - apply (live_scrape_succeeds_iff xavier). reflexivity.
  - apply (live_scrape_succeeds_iff xavier_no_vddrq). reflexivity.
Defined.

(** X2: whatever the session holds, the families a scrape yields are named
    as an initial segment of the fixed list of thirteen: never more than
    thirteen, never out of order, and no name twice. *)
Theorem yielded_names_initial_segment self :
  header <$> yielded (collect self) =
    take (length (yielded (collect self))) family_headers ∧
  (length (yielded (collect self)) ≤ 13)%nat ∧
  NoDup (name <$> yielded (collect self)).
Proof.
  split_and!.
  - apply yielded_headers.
  - apply yielded_length.
  - assert (name <$> yielded (collect self) =
            take (length (yielded (collect self))) family_headers.*1) as ->.
    { rewrite <-fmap_take, <-yielded_headers, <-list_fmap_compose. done. }
    eapply sublist_NoDup; [apply family_names_NoDup|apply sublist_take].
Qed.

(** X3: the hours and minutes of the uptime family are the duration's
    seconds cut to whole minutes: together they fall short of the seconds by
    less than a minute, for any number of seconds. *)
Theorem uptime_loses_less_than_a_minute self g :
  jetson_uptime self = inr g →
  ∃ h m, samples g = gauge_samples ["days"; "hours"; "minutes"]
                       [Int (days (uptime self)); Int h; Int m] ∧
         0 ≤ seconds (uptime self) - (h * 3600 + m * 60) < 60.
Proof.
  rewrite jetson_uptime_inr. intros [= <-].
  eexists _, _. split; [reflexivity|].
  pose proof (Z.div_mod (seconds (uptime self)) 60 ltac:(lia)) as H60.
  pose proof (Z.mod_pos_bound (seconds (uptime self)) 60 ltac:(lia)) as Hm.
  assert (seconds (uptime self) `div` 3600 =
          (seconds (uptime self) `div` 60) `div` 60) as ->.
  { rewrite Z.div_div by lia. done. }
  pose proof (Z.div_mod (seconds (uptime self) `div` 60) 60 ltac:(lia)) as Hq.
  lia.
Qed.

Lemma uptime_loses_less_than_a_minute_witness :
  ∃ h m, samples {| typ := gauge; name := "jetson_uptime";
                    documentation := "System uptime"; labels := ["uptime"];
                    samples := gauge_samples ["days"; "hours"; "minutes"]
                                 [Int 2; Int 2; Int 46] |} =
           gauge_samples ["days"; "hours"; "minutes"]
             [Int (days (uptime xavier)); Int h; Int m] ∧
         0 ≤ seconds (uptime xavier) - (h * 3600 + m * 60) < 60.
Proof.
  apply (uptime_loses_less_than_a_minute xavier). reflexivity.
Defined.

Lemma family_sample_labels_NoDup : Forall NoDup family_sample_labels.
Proof. apply (bool_decide_unpack _). vm_compute. exact I. Qed.

Lemma family_headers_one_label :
  Forall (λ h : string * list string, length h.2 = 1%nat) family_headers.
Proof. repeat constructor. Qed.

(** X4: the label values of the samples of a yielded family are fixed by
    the family's place in the output, whatever the snapshot holds; within a
    family no label value occurs twice, and every sample has as many label
    values as the family has label keys. *)
Theorem sample_labels_fixed self i f :
  yielded (collect self) !! i = Some f →
  ∃ ls, family_sample_labels !! i = Some ls ∧
        label_values <$> samples f = (λ l, [l]) <$> ls ∧
        NoDup (label_values <$> samples f) ∧
        Forall (λ s, length (label_values s) = length (labels f)) (samples f).
Proof.
  intros Hi.
  pose proof (yielded_header _ _ _ Hi) as Hh.
  apply yielded_lookup, block_sample_labels in Hi as (ls & Hls & Hlab).
  exists ls. split_and!; [done..| |].
  - rewrite Hlab. apply NoDup_fmap_2.
    + by intros x y [=].
    + by eapply (Forall_lookup_1 _ _ _ _ family_sample_labels_NoDup).
  - pose proof (Forall_lookup_1 _ _ _ _ family_headers_one_label Hh) as H1.
    simpl in H1. rewrite H1. apply Forall_forall. intros s Hs.
    assert (label_values s ∈ (λ l : string, [l]) <$> ls) as Hin.
    { rewrite <-Hlab. by apply list_elem_of_fmap_2. }
    by apply list_elem_of_fmap_1 in Hin as (l & -> & _).
Qed.

Lemma sample_labels_fixed_witness :
  ∃ ls, family_sample_labels !! 9%nat = Some ls ∧
        label_values <$> samples
          {| typ := gauge; name := "jetson_temperatures";
             documentation := "Sensor temperatures";
             labels := ["temperature"];
             samples := gauge_samples sensor_labels
                          (sensor_reading xavier <$> sensor_names) |} =
          (λ l, [l]) <$> ls ∧
        NoDup (label_values <$> gauge_samples sensor_labels
                                  (sensor_reading xavier <$> sensor_names)) ∧
        Forall (λ s, length (label_values s) = 1%nat)
          (gauge_samples sensor_labels (sensor_reading xavier <$> sensor_names)).
Proof.
  apply (sample_labels_fixed xavier 9). vm_compute. reflexivity.
Defined.

(** ** Which key an error names *)

Lemma jetson_info_board_eval_all self :
  jetson_info_board self =
  (vs ← eval_all (board_items self); mret (board_info_family vs)).
Proof.
  unfold jetson_info_board, board_items, identity_fields.
  cbn [fmap list_fmap fst snd eval_all].
  destruct (getitem (board self) "platform" ≫= λ d, getitem d "Machine");
    [reflexivity|].
  destruct (getitem (board self) "platform" ≫= λ d, getitem d "Distribution");
    [reflexivity|].
  destruct (getitem (board self) "platform" ≫= λ d, getitem d "Release");
    [reflexivity|].
  destruct (getitem (board self) "hardware" ≫= λ d, getitem d "Jetpack");
    [reflexivity|].
  destruct (getitem (board self) "hardware" ≫= λ d, getitem d "L4T");
    [reflexivity|].
  destruct (getitem (board self) "hardware" ≫= λ d, getitem d "Module");
    [reflexivity|].
  destruct (getitem (board self) "hardware" ≫= λ d, getitem d "Model");
    [reflexivity|].
  destruct (getitem (board self) "hardware" ≫= λ d, getitem d "Codename");
    [reflexivity|].
  destruct (getitem (board self) "hardware" ≫= λ d, getitem d "SoC");
    [reflexivity|].
  destruct (getitem (board self) "hardware" ≫= λ d, getitem d "CUDA Arch BIN");
    [reflexivity|].
  destruct (getitem (board self) "hardware" ≫= λ d, getitem d "Serial Number");
    reflexivity.
Qed.

Lemma eval_all_first_inl vs e rest :
  eval_all ((inr <$> vs) ++ inl e :: rest) = inl e.
Proof.
  induction vs as [|v vs IH]; [done|].
  rewrite fmap_cons, <-app_comm_cons. cbn [eval_all].
  rewrite IH. reflexivity.
Qed.

Lemma board_items_present self (pre : list (string * string)) :
  Forall (λ sk, is_Some (board_at self sk.1 sk.2)) pre →
  ∃ vs : list string,
    ((λ sk, getitem (board self) sk.1 ≫= λ d, getitem d sk.2) <$> pre) =
    (inr <$> vs : list (exn + string)).
Proof.
  induction 1 as [|[s k] pre [v Hv] _ [vs IH]]; [by exists []|].
  exists (v :: vs). rewrite !fmap_cons, IH. f_equal.
  by apply board_expr.
Qed.

(** X6: the board-info error names the first missing key, in the order the
    eleven fields are read: the section ("platform" or "hardware") when the
    board has no such section, the field's own key when the section is there
    without it.  Nothing is yielded. *)
Theorem board_error_names_first_missing_key self pre s k post :
  ok self = true →
  identity_fields = pre ++ (s, k) :: post →
  Forall (λ sk, is_Some (board_at self sk.1 sk.2)) pre →
  board_at self s k = None →
  collect self =
  MkGen [] (inl (KeyError (match board self !! s with
                           | Some _ => k
                           | None => s
                           end))).
Proof.
  intros Hok Hsplit Hpre Hsk.
  destruct (board_items_present self pre Hpre) as [vs Hvs].
  assert (jetson_info_board self =
          inl (KeyError (match board self !! s with
                         | Some _ => k
                         | None => s
                         end))) as Hb.
  { rewrite jetson_info_board_eval_all. unfold board_items.
    rewrite Hsplit, fmap_app, fmap_cons, Hvs. simpl fst. simpl snd.
    unfold board_at in Hsk.
    destruct (board self !! s) as [d|] eqn:Hs; simpl in Hsk.
    - rewrite (getitem_Some _ _ _ Hs). simpl.
      rewrite (getitem_None _ _ Hsk).
      by rewrite eval_all_first_inl.
    - rewrite (getitem_None _ _ Hs). simpl.
      by rewrite eval_all_first_inl. }
  rewrite (collect_emit _ Hok). unfold blocks. by rewrite Hb.
Qed.

Lemma board_error_names_first_missing_key_witness :
  collect xavier_no_serial = MkGen [] (inl (KeyError "Serial Number")) ∧
  collect xavier_no_platform = MkGen [] (inl (KeyError "platform")).
Proof.
  split.
  - apply (board_error_names_first_missing_key xavier_no_serial
             (take 10 identity_fields) "hardware" "Serial Number" []).
    + reflexivity.
    + reflexivity.
    + apply (bool_decide_unpack _). vm_compute. exact I.
    + vm_compute. reflexivity.
  - apply (board_error_names_first_missing_key xavier_no_platform
             [] "platform" "Machine" (drop 1 identity_fields)).
    + reflexivity.
    + reflexivity.
    + constructor.
    + vm_compute. reflexivity.
Defined.

(** ** Hard-wired unit names *)

Lemma first_four_ok self :
  board_identity self → eight_cores self →
  ∀ i, (i < 4)%nat → ∃ f, blocks self !! i = Some (inr f).
Proof.
  intros [f1 H1]%jetson_info_board_identity [f4 H4]%jetson_usage_cpu_ok i Hi.
  unfold blocks. rewrite H1, H4.
  do 4 (destruct i as [|i]; [simpl; eauto|]). lia.
Qed.

(** X7: the GPU load is read from the unit named "gv11b" only.  On a live
    session whose GPU mapping has no such unit, however many others it has,
    the scrape ends with [KeyError "gv11b"] once the four families before
    the GPU family (board info, power mode, uptime, CPU) are yielded. *)
Theorem other_gpu_unit_raises self :
  ok self = true → board_identity self → eight_cores self →
  gpu self !! "gv11b" = None →
  outcome (collect self) = inl (KeyError "gv11b") ∧
  header <$> yielded (collect self) = take 4 family_headers.
Proof.
  intros Hok Hid Hcpu Hgpu.
  destruct (collect_raises self 4 (KeyError "gv11b") Hok) as [Ho Hlen].
  - simpl. unfold jetson_usage_gpu. by rewrite (getitem_None _ _ Hgpu).
  - by apply first_four_ok.
  - split; [done|]. by rewrite yielded_headers, Hlen.
Qed.

Lemma other_gpu_unit_raises_witness :
  outcome (collect xavier_other_gpu) = inl (KeyError "gv11b") ∧
  header <$> yielded (collect xavier_other_gpu) = take 4 family_headers.
Proof.
  apply (other_gpu_unit_raises xavier_other_gpu).
  - reflexivity.
  - apply (bool_decide_unpack _). vm_compute. exact I.
  - apply (bool_decide_unpack _). vm_compute. exact I.
  - vm_compute. reflexivity.
Defined.

Lemma first_seven_ok self :
  board_identity self → eight_cores self → is_Some (gpu_load self) →
  Forall (λ k, is_Some (memory_at self "RAM" k)) ["used"; "shared"; "tot"] →
  Forall (λ k, is_Some (disk self !! k))
    ["used"; "total"; "available"; "available_no_root"] →
  ∀ i, (i < 7)%nat → ∃ f, blocks self !! i = Some (inr f).
Proof.
  intros [f1 H1]%jetson_info_board_identity [f4 H4]%jetson_usage_cpu_ok
    Hgpu Hram Hdisk i Hi.
  assert (∃ f, jetson_usage_gpu self = inr f) as [f5 H5].
  { rewrite jetson_usage_gpu_fill. apply fill_is_inr. unfold gpu_items.
    repeat constructor. simpl. by apply gpu_is_Some. }
  assert (∃ f, jetson_usage_ram self = inr f) as [f6 H6].
  { rewrite jetson_usage_ram_fill. apply fill_is_inr. unfold ram_items.
    inv_Forall Hram. repeat constructor; simpl; by apply memory_is_Some. }
  assert (∃ f, jetson_usage_disk self = inr f) as [f7 H7].
  { rewrite jetson_usage_disk_fill. apply fill_is_inr. unfold disk_items.
    inv_Forall Hdisk. repeat constructor; simpl; by apply disk_is_Some. }
  unfold blocks. rewrite H1, H4, H5, H6, H7.
  do 7 (destruct i as [|i]; [simpl; eauto|]). lia.
Qed.

(** X8: the fan is read from the controller named "tegra_pwmfan" only.  On
    a live session whose fan mapping has no such controller, the scrape ends
    with [KeyError "tegra_pwmfan"] once the seven families before the fan
    family are yielded. *)
Theorem other_fan_controller_raises self :
  ok self = true → board_identity self → eight_cores self →
  is_Some (gpu_load self) →
  Forall (λ k, is_Some (memory_at self "RAM" k)) ["used"; "shared"; "tot"] →
  Forall (λ k, is_Some (disk self !! k))
    ["used"; "total"; "available"; "available_no_root"] →
  fan self !! "tegra_pwmfan" = None →
  outcome (collect self) = inl (KeyError "tegra_pwmfan") ∧
  header <$> yielded (collect self) = take 7 family_headers.
Proof.
  intros Hok Hid Hcpu Hgpu Hram Hdisk Hfan.
  destruct (collect_raises self 7 (KeyError "tegra_pwmfan") Hok) as [Ho Hlen].
  - simpl. unfold jetson_usage_fan. by rewrite (getitem_None _ _ Hfan).
  - by apply first_seven_ok.
  - split; [done|]. by rewrite yielded_headers, Hlen.
Qed.

Lemma other_fan_controller_raises_witness :
  outcome (collect xavier_other_fan) = inl (KeyError "tegra_pwmfan") ∧
  header <$> yielded (collect xavier_other_fan) = take 7 family_headers.
Proof.
  apply (other_fan_controller_raises xavier_other_fan).
  - reflexivity.
  - apply (bool_decide_unpack _). vm_compute. exact I.
  - apply (bool_decide_unpack _). vm_compute. exact I.
  - apply (bool_decide_unpack _). vm_compute. exact I.
  - apply (bool_decide_unpack _). vm_compute. exact I.
  - apply (bool_decide_unpack _). vm_compute. exact I.
  - vm_compute. reflexivity.
Defined.

(** ** Where an error comes from *)

Ltac provenance :=
  intros; simplify_eq;
  first
    [ by (apply (bool_decide_unpack _); vm_compute)
    | match goal with
      | Hl : cpu _ !! "cpu" = Some ?l, Hi : ?l !! _ = None |- _ =>
          exists l; split; [done|apply lookup_ge_None in Hi; lia]
      end ].

Lemma block_error self n e :
  blocks self !! n = Some (inl e) →
  match e with
  | KeyError k => k ∈ subscript_keys
  | IndexError => ∃ l, cpu self !! "cpu" = Some l ∧ (length l < 8)%nat
  end.
Proof.
  unfold blocks.
  do 13 (try (destruct n as [|n]; [intros Hn; apply (inj Some) in Hn|]));
    [..|done]; revert Hn;
    unfold jetson_info_board, jetson_nvpmode, jetson_uptime, jetson_usage_cpu,
      jetson_usage_gpu, jetson_usage_ram, jetson_usage_disk, jetson_usage_fan,
      jetson_usage_swap, jetson_temperatures, jetson_usage_power,
      jetson_usage_voltage_levels, jetson_usage_current_values,
      cpu_freq_cur, rail, getitem, getindex, mbind, exc_bind, mret, exc_ret;
    repeat (case_match; try by provenance); by provenance.
Qed.

(** X9: an error ending a scrape is never made up.  An [IndexError] means
    the core list is there with fewer than eight entries; a [KeyError] names
    one of the keys [collect] subscripts with. *)
Theorem scrape_error_provenance self e :
  outcome (collect self) = inl e →
  ok self = true ∧
  match e with
  | KeyError k => k ∈ subscript_keys
  | IndexError => ∃ l, cpu self !! "cpu" = Some l ∧ (length l < 8)%nat
  end.
Proof.
  intros Ho. destruct (ok self) eqn:Hok.
  - split; [done|].
    destruct (collect_cases _ Hok) as [(fs & _ & Hc)|(fs & e' & rest & Hb & Hc)];
      rewrite Hc in Ho; [discriminate|]. injection Ho as ->.
    apply (block_error self (length fs)). rewrite Hb.
    apply list_lookup_middle. by rewrite length_fmap.
  - by rewrite (collect_not_ok _ Hok) in Ho.
Qed.

Lemma scrape_error_provenance_witness :
  ok (set_cores xavier six_core_list) = true ∧
  ∃ l, cpu (set_cores xavier six_core_list) !! "cpu" = Some l ∧
       (length l < 8)%nat.
Proof.
  apply (scrape_error_provenance (set_cores xavier six_core_list) IndexError).
  vm_compute. reflexivity.
Defined.

(** ** What a complete scrape contains *)

Ltac concrete H vs :=
  repeat (destruct vs as [|? vs]; cbn [fmap list_fmap] in H;
          [discriminate|injection H as ? H]);
  destruct vs; [clear H|discriminate].

(** X10: the output of a complete scrape, in full.  With the identity
    fields [ids], the core frequencies [cores], the GPU load [g], the RAM,
    disk, fan and swap fields and the power, voltage and current of the six
    rails read off the session, [collect] yields these thirteen families in
    this order and ends without error: every value under the label the
    source gives it (the board's 'Model' as 'type', the 'tot' of RAM and swap
    as 'total'), unchanged, with no unit conversion and no rounding. *)
Theorem complete_scrape_contents self ids cores g ram dsk fn sw pw vl cr :
  ok self = true →
  (λ sk, board_at self sk.1 sk.2) <$> identity_fields = Some <$> ids →
  core_at self <$> seq 0 8 = Some <$> cores →
  gpu_load self = Some g →
  memory_at self "RAM" <$> ["used"; "shared"; "tot"] = Some <$> ram →
  (λ k, disk self !! k) <$>
    ["used"; "total"; "available"; "available_no_root"] = Some <$> dsk →
  fan_at self <$> ["speed"; "rpm"] = Some <$> fn →
  memory_at self "SWAP" <$> ["used"; "tot"] = Some <$> sw →
  (λ r, rail_at self r "power") <$> rail_names = Some <$> pw →
  (λ r, rail_at self r "volt") <$> rail_names = Some <$> vl →
  (λ r, rail_at self r "curr") <$> rail_names = Some <$> cr →
  collect self =
  MkGen
    [ board_info_family ids;
      {| typ := info; name := "jetson_nvpmode";
         documentation := "NV power mode"; labels := ["nvpmode"];
         samples := [ {| label_values := ["mode"];
                         value := InfoValue
                           [("mode", NVPModel.name (nvpmodel self))] |} ] |};
      gauge_family "jetson_uptime" "System uptime" "uptime"
        ["days"; "hours"; "minutes"]
        [Int (days (uptime self)); Int (seconds (uptime self) `div` 3600);
         Int ((seconds (uptime self) `div` 60) `mod` 60)];
      gauge_family "jetson_usage_cpu" "CPU % schedutil" "cpu" core_labels cores;
      gauge_family "jetson_usage_gpu" "GPU % schedutil" "gpu" ["val"] [g];
      gauge_family "jetson_usage_ram" "Memory usage" "ram"
        ["used"; "shared"; "total"] ram;
      gauge_family "jetson_usage_disk" "Disk space usage" "disk"
        ["used"; "total"; "available"; "available_no_root"] dsk;
      gauge_family "jetson_usage_fan" "Fan usage" "fan" ["speed"; "rpm"] fn;
      gauge_family "jetson_usage_swap" "Swapfile usage" "swap"
        ["used"; "total"] sw;
      gauge_family "jetson_temperatures" "Sensor temperatures" "temperature"
        sensor_labels (sensor_reading self <$> sensor_names);
      gauge_family "jetson_usage_power" "Power usage" "power" rail_labels pw;
      gauge_family "jetson_usage_voltage_levels" "Voltage" "voltage"
        rail_labels vl;
      gauge_family "jetson_usage_current_values" "Current" "current"
        rail_labels cr ]
    (inr ()).
Proof.
  intros Hok Hids Hcores Hg Hram Hdsk Hfn Hsw Hpw Hvl Hcr.
  unfold identity_fields, rail_names in *.
  cbn [fmap list_fmap seq fst snd] in *.
  concrete Hids ids. concrete Hcores cores. concrete Hram ram.
  concrete Hdsk dsk. concrete Hfn fn. concrete Hsw sw.
  concrete Hpw pw. concrete Hvl vl. concrete Hcr cr.
  repeat match goal with
         | H : board_at _ _ _ = Some _ |- _ => apply board_expr in H
         | H : core_at _ _ = Some _ |- _ => apply cpu_expr in H
         | H : gpu_load _ = Some _ |- _ => apply gpu_expr in H
         | H : memory_at _ _ _ = Some _ |- _ => apply memory_expr in H
         | H : disk _ !! _ = Some _ |- _ => apply getitem_inr in H
         | H : fan_at _ _ = Some _ |- _ => apply fan_expr in H
         | H : rail_at _ _ _ = Some _ |- _ => apply rail_expr in H
         end.
  rewrite (collect_emit _ Hok). unfold blocks.
  rewrite jetson_temperatures_inr.
  unfold jetson_info_board, jetson_usage_cpu, jetson_usage_gpu,
    jetson_usage_ram, jetson_usage_disk, jetson_usage_fan, jetson_usage_swap,
    jetson_usage_power, jetson_usage_voltage_levels,
    jetson_usage_current_values.
  repeat match goal with
         | H : _ = inr _ |- _ => rewrite H; clear H
         end.
  reflexivity.
Qed.

Lemma complete_scrape_contents_witness :
  yielded (collect xavier) !! 5%nat =
  Some (gauge_family "jetson_usage_ram" "Memory usage" "ram"
          ["used"; "shared"; "total"]
          [Int 5120000; Int 1024; Int 32000000]).
Proof.
  rewrite (complete_scrape_contents xavier
    ["aarch64"; "Ubuntu 20.04 focal"; "5.10.104-tegra"; "5.1.1"; "35.3.1";
     "NVIDIA Jetson AGX Xavier (32 GB ram)"; "Jetson-AGX"; "Galen";
     "tegra194"; "7.2"; "1420921055555"]
    [Int 100; Int 200; Int 300; Int 400; Int 500; Int 600; Int 700; Int 800]
    (Float 12.5)
    [Int 5120000; Int 1024; Int 32000000]
    [Float 11.5; Float 27.5; Float 16; Float 14.75]
    [Int 40; Int 1800]
    [Int 0; Int 16000000]
    [Int 1546; Int 0; Int 1238; Int 2161; Int 2945; Int 386]
    [Int 18944; Int 18944; Int 18944; Int 18944; Int 5032; Int 18944]
    [Int 81; Int 0; Int 65; Int 114; Int 585; Int 20]);
    [reflexivity | reflexivity | vm_compute; reflexivity..].
Defined.

(** ** Absent sensors and zero readings *)

Lemma jetson_temperatures_set_temperature self t :
  Forall (λ k, default (Int 0) (t !! k) = sensor_reading self k) sensor_names →
  jetson_temperatures (set_temperature self t) = jetson_temperatures self.
Proof.
  intros H. rewrite !jetson_temperatures_inr. do 3 f_equal.
  apply Forall_fmap_ext_1. exact H.
Qed.

Lemma collect_set_temperature self t :
  Forall (λ k, default (Int 0) (t !! k) = sensor_reading self k) sensor_names →
  collect (set_temperature self t) = collect self.
Proof.
  intros H. unfold collect.
  rewrite (jetson_temperatures_set_temperature self t H). reflexivity.
Qed.

Lemma same_reading_refl a : same_reading a a.
Proof. by left. Qed.

Lemma same_family_refl f : same_family f f.
Proof.
  unfold same_family. split_and!; [done..|].
  apply Forall_Forall2_diag, Forall_forall. intros s _. split; [done|].
  destruct (value s); simpl; [apply same_reading_refl|done].
Qed.

Lemma same_gauge_samples ls rs rs' :
  Forall2 same_reading rs rs' →
  Forall2 same_sample (gauge_samples ls rs) (gauge_samples ls rs').
Proof.
  intros H. revert ls.
  induction H as [|r r' rs rs' Hr _ IH]; intros [|l ls]; try constructor.
  - by split.
  - apply IH.
Qed.

Lemma emit_same_scrape bs bs' :
  Forall2 (λ x y : exn + MetricFamily,
             match x, y with
             | inl e, inl e' => e = e'
             | inr f, inr g => same_family f g
             | _, _ => False
             end) bs bs' →
  same_scrape (emit bs) (emit bs').
Proof.
  induction 1 as [|x y bs bs' Hxy _ [IHo IHy]]; [by split|].
  destruct x as [e|f], y as [e'|g]; try done.
  - subst e'. rewrite !emit_cons_inl. by split.
  - rewrite !emit_cons_inr. split; [done|]. simpl. by constructor.
Qed.

Ltac same_step b :=
  lazymatch goal with
  | |- context [b] => destruct b; [reflexivity|apply same_family_refl]
  end.

(** The readings of the seven sensors after a reading that compares equal
    to 0 is added for an absent sensor. *)
Lemma zero_reading_same self k v k' :
  temperature self !! k = None → is_zero v = true →
  same_reading
    (sensor_reading (set_temperature self (<[k := v]> (temperature self))) k')
    (sensor_reading self k').
Proof.
  intros Hk Hv. unfold sensor_reading, set_temperature. simpl.
  destruct (decide (k = k')) as [<-|Hne].
  - rewrite lookup_insert_eq, Hk. simpl. by right.
  - rewrite lookup_insert_ne by done. by left.
Qed.

(** X11: the scrape cannot tell an absent sensor from one that reads zero,
    and never shows a sensor outside the seven it knows.  A reading for a
    sensor outside the seven leaves the whole scrape as it was.  So does the
    int 0 added for an absent sensor.  A reading that compares equal to 0 (0,
    0.0 or -0.0) added for an absent sensor gives the same scrape family for
    family and record for record, each value identical or equal to 0 on both
    sides; and once the temperature family is yielded, a reading of one of
    the seven sensors does so only if it compares equal to 0. *)
Theorem absent_sensor_reads_as_zero self k v :
  let self' := set_temperature self (<[k := v]> (temperature self)) in
  (k ∉ sensor_names → collect self' = collect self) ∧
  (temperature self !! k = None → v = Int 0 → collect self' = collect self) ∧
  (temperature self !! k = None → is_zero v = true →
   same_scrape (collect self') (collect self)) ∧
  (temperature self !! k = None → k ∈ sensor_names →
   ok self = true → board_identity self → eight_cores self →
   usage_fields self →
   same_scrape (collect self') (collect self) → is_zero v = true).
Proof.
  intros self'. subst self'. split_and!.
  - intros Hk. apply collect_set_temperature.
    apply Forall_forall. intros k' Hk'. unfold sensor_reading.
    rewrite lookup_insert_ne; [done|]. by intros ->.
  - intros Hk ->. apply collect_set_temperature.
    apply Forall_forall. intros k' Hk'. unfold sensor_reading.
    destruct (decide (k = k')) as [<-|Hne].
    + by rewrite lookup_insert_eq, Hk.
    + by rewrite lookup_insert_ne.
  - intros Hk Hv. destruct (ok self) eqn:Hok.
    + rewrite (collect_emit self Hok),
        (collect_emit (set_temperature self (<[k := v]> (temperature self)))
           Hok).
      apply emit_same_scrape. unfold blocks.
      rewrite !jetson_temperatures_inr.
      set (self' := set_temperature self (<[k := v]> (temperature self))).
      change (jetson_info_board self') with (jetson_info_board self).
      change (jetson_usage_cpu self') with (jetson_usage_cpu self).
      change (jetson_usage_gpu self') with (jetson_usage_gpu self).
      change (jetson_usage_ram self') with (jetson_usage_ram self).
      change (jetson_usage_disk self') with (jetson_usage_disk self).
      change (jetson_usage_fan self') with (jetson_usage_fan self).
      change (jetson_usage_swap self') with (jetson_usage_swap self).
      change (jetson_usage_power self') with (jetson_usage_power self).
      change (jetson_usage_voltage_levels self')
        with (jetson_usage_voltage_levels self).
      change (jetson_usage_current_values self')
        with (jetson_usage_current_values self).
      change (jetson_nvpmode self') with (jetson_nvpmode self).
      change (jetson_uptime self') with (jetson_uptime self).
      repeat (constructor 2); [..|constructor];
        try same_step (jetson_info_board self);
        try same_step (jetson_nvpmode self);
        try same_step (jetson_uptime self);
        try same_step (jetson_usage_cpu self);
        try same_step (jetson_usage_gpu self);
        try same_step (jetson_usage_ram self);
        try same_step (jetson_usage_disk self);
        try same_step (jetson_usage_fan self);
        try same_step (jetson_usage_swap self);
        try same_step (jetson_usage_power self);
        try same_step (jetson_usage_voltage_levels self);
        try same_step (jetson_usage_current_values self).
      unfold same_family. split_and!; [done..|]. cbn [samples].
      apply same_gauge_samples, Forall2_fmap, Forall_Forall2_diag, Forall_forall.
      intros k' _. by apply zero_reading_same.
    + rewrite (collect_not_ok self Hok),
        (collect_not_ok (set_temperature self (<[k := v]> (temperature self)))
           Hok).
      by split.
  - intros Hk Hin Hok Hid Hcpu Huse [_ Hy].
    pose proof (first_ten_ok self Hid Hcpu Huse) as Hten.
    pose proof (yielded_prefix self 10 Hok Hten 9) as H9.
    pose proof (first_ten_ok
      (set_temperature self (<[k := v]> (temperature self))) Hid Hcpu Huse)
      as Hten'.
    pose proof (yielded_prefix
      (set_temperature self (<[k := v]> (temperature self))) 10 Hok Hten' 9)
      as H9'.
    specialize (H9 _ ltac:(lia) (f_equal Some (jetson_temperatures_inr self))).
    specialize (H9' _ ltac:(lia) (f_equal Some (jetson_temperatures_inr _))).
    destruct (Forall2_lookup_l _ _ _ _ _ Hy H9') as (g & Hg & Hfam).
    rewrite H9 in Hg. injection Hg as <-.
    destruct Hfam as (_ & _ & _ & _ & Hs). cbn [samples] in Hs.
    assert (∀ k', k' ∈ sensor_names →
      same_reading
        (sensor_reading
           (set_temperature self (<[k := v]> (temperature self))) k')
        (sensor_reading self k')) as Hall.
    { unfold sensor_names, sensor_labels in *.
      cbn [fmap list_fmap gauge_samples zip_with] in Hs.
      repeat (apply Forall2_cons in Hs as [[_ ?] Hs]).
      intros k' Hk'.
      repeat (apply elem_of_cons in Hk' as [->|Hk']; [assumption|]).
      by apply elem_of_nil in Hk'. }
    specialize (Hall k Hin). unfold sensor_reading, set_temperature in Hall.
    simpl in Hall. rewrite lookup_insert_eq, Hk in Hall. simpl in Hall.
    destruct Hall as [->|[Hz _]]; [reflexivity|exact Hz].
Qed.

Lemma absent_sensor_reads_as_zero_witness :
  collect (set_temperature xavier (<["PMIC" := Float 50]> (temperature xavier))) =
  collect xavier ∧
  collect (set_temperature xavier (<["AO" := Int 0]> (temperature xavier))) =
  collect xavier ∧
  same_scrape
    (collect (set_temperature xavier (<["AO" := Float 0]> (temperature xavier))))
    (collect xavier) ∧
  same_scrape
    (collect (set_temperature xavier
                (<["Tboard" := Float neg_zero]> (temperature xavier))))
    (collect xavier) ∧
  ¬ same_scrape
      (collect (set_temperature xavier
                  (<["AO" := Float 31.5]> (temperature xavier))))
      (collect xavier).
Proof.
  split_and!.
  - destruct (absent_sensor_reads_as_zero xavier "PMIC" (Float 50))
      as (H & _). apply H.
    apply (bool_decide_unpack _). vm_compute. exact I.
  - destruct (absent_sensor_reads_as_zero xavier "AO" (Int 0))
      as (_ & H & _). apply H; [vm_compute|]; reflexivity.
  - destruct (absent_sensor_reads_as_zero xavier "AO" (Float 0))
      as (_ & _ & H & _). apply H; vm_compute; reflexivity.
  - destruct (absent_sensor_reads_as_zero xavier "Tboard" (Float neg_zero))
      as (_ & _ & H & _). apply H; vm_compute; reflexivity.
  - intros Hs.
    destruct (absent_sensor_reads_as_zero xavier "AO" (Float 31.5))
      as (_ & _ & _ & H).
    assert (is_zero (Float 31.5) = true) as Hz; [|by vm_compute in Hz].
    apply H; [| | |apply (bool_decide_unpack _); vm_compute; exact I..|exact Hs].
    + vm_compute. reflexivity.
    + apply (bool_decide_unpack _). vm_compute. exact I.
    + reflexivity.
Defined.
